(** * pyfda plot widgets: the numeric core of [plot_impz.py] and [plot_fft_win.py]

    The two widgets compute, next to their Qt plumbing, (a) the number of
    points of an impulse response and the series that is plotted for it
    ([PlotImpz.calc_n_points], [PlotImpz.draw_impz]) and (b) a window, its
    two figures of merit and its zero-padded spectrum
    ([Plot_FFT_win.calc_win], [Plot_FFT_win.update_view]); [SigRx] adds
    [draw] and the signal handler [process_sig_rx] of the window viewer.

    Python exceptions are results of type [result]; attributes of [self]
    that a method assigns are fields of a record that is threaded through;
    NumPy's float64 is modelled by extended reals (see [float64]); the
    module [Binary64] repeats the two quotients of [calc_win] on IEEE
    binary64 numbers for the inputs of the examples. *)

From Corelib Require PrimFloat.
From Stdlib Require Import Reals Lra Lia List String ZArith Bool DecimalString.
Import ListNotations.
Open Scope R_scope.

(* ================================================================== *)
(** ** Python: exceptions and sequences *)

Module Py.

(** The exceptions the modelled statements can raise. *)
Inductive exn : Type :=
| TypeError          (* raise TypeError(...), or a call with a wrong arity *)
| IndexError         (* seq[i] with i out of range *)
| AttributeError     (* getattr(module, name) for an unknown name *)
| ZeroDivisionError  (* x / 0 on Python numbers *)
| ValueError.        (* a library routine refusing an argument *)

Inductive result (A : Type) : Type :=
| Ok (a : A)
| Raise (e : exn).
Arguments Ok {A} a.
Arguments Raise {A} e.

Definition bind {A B} (m : result A) (k : A -> result B) : result B :=
  match m with
  | Ok a => k a
  | Raise e => Raise e
  end.

(** [len(s)] *)
Definition len {A} (s : list A) : Z := Z.of_nat (List.length s).

(** [s[0]] on a list or a one-dimensional array. *)
Definition getitem0 {A} (s : list A) : result A :=
  match s with
  | [] => Raise IndexError
  | x :: _ => Ok x
  end.

(** [s[1:]] *)
Definition slice_from1 {A} (s : list A) : list A := skipn 1 s.

(** [str(n)] for a non-negative integer. *)
Definition str (n : nat) : string := NilZero.string_of_uint (Nat.to_uint n).

End Py.
Export Py.

Declare Scope py_scope.
Delimit Scope py_scope with py.
Notation "x <- m ;; k" := (Py.bind m (fun x => k))
  (at level 61, m at next level, right associativity) : py_scope.
Open Scope py_scope.

(* ================================================================== *)
(** ** NumPy: float64 scalars, arrays and the routines the widgets call *)

Module Np.

(** A float64 value: a finite real, one of the two infinities, or NaN.
    The special values follow IEEE 754; rounding is not modelled and the
    two zeros are identified (a division by zero takes the sign of the
    numerator). *)
Inductive float64 : Type :=
| Fin (r : R)
| PInf
| NInf
| NaN.

Definition Rsgn (r : R) : comparison :=
  match total_order_T r 0 with
  | inleft (left _) => Lt
  | inleft (right _) => Eq
  | inright _ => Gt
  end.

Definition signed_inf (c : comparison) : float64 :=
  match c with
  | Lt => NInf
  | Eq => NaN
  | Gt => PInf
  end.

(** [x != 0], which is also the truth value of [x]: NaN and the
    infinities are non-zero. *)
Definition f_nonzero (x : float64) : bool :=
  match x with
  | Fin r => if Req_EM_T r 0 then false else true
  | _ => true
  end.

Definition f_opp (x : float64) : float64 :=
  match x with
  | Fin r => Fin (- r)
  | PInf => NInf
  | NInf => PInf
  | NaN => NaN
  end.

Definition f_add (x y : float64) : float64 :=
  match x, y with
  | NaN, _ | _, NaN => NaN
  | Fin a, Fin b => Fin (a + b)
  | PInf, NInf | NInf, PInf => NaN
  | PInf, _ | _, PInf => PInf
  | NInf, _ | _, NInf => NInf
  end.

Definition f_sub (x y : float64) : float64 := f_add x (f_opp y).

Definition f_mul (x y : float64) : float64 :=
  match x, y with
  | NaN, _ | _, NaN => NaN
  | Fin a, Fin b => Fin (a * b)
  | Fin a, PInf | PInf, Fin a => signed_inf (Rsgn a)
  | Fin a, NInf | NInf, Fin a => signed_inf (CompOpp (Rsgn a))
  | PInf, PInf | NInf, NInf => PInf
  | PInf, NInf | NInf, PInf => NInf
  end.

(** NumPy's [/] on float64: a zero divisor gives an infinity or NaN (and
    a RuntimeWarning), never an exception. *)
Definition f_div (x y : float64) : float64 :=
  match x, y with
  | NaN, _ | _, NaN => NaN
  | Fin a, Fin b => if Req_EM_T b 0 then signed_inf (Rsgn a) else Fin (a / b)
  | Fin _, _ => Fin 0
  | _, PInf | _, NInf => NaN
  | PInf, Fin b => if Rlt_dec b 0 then NInf else PInf
  | NInf, Fin b => if Rlt_dec b 0 then PInf else NInf
  end.

Definition f_abs (x : float64) : float64 :=
  match x with
  | Fin r => Fin (Rabs r)
  | PInf | NInf => PInf
  | NaN => NaN
  end.

(** [np.log10]: minus infinity at zero, NaN below it. *)
Definition f_log10 (x : float64) : float64 :=
  match x with
  | Fin r =>
      match Rsgn r with
      | Gt => Fin (ln r / ln 10)
      | Eq => NInf
      | Lt => NaN
      end
  | PInf => PInf
  | NInf | NaN => NaN
  end.

(** [np.maximum] on two scalars: NaN propagates. *)
Definition f_maximum (x y : float64) : float64 :=
  match x, y with
  | NaN, _ | _, NaN => NaN
  | PInf, _ | _, PInf => PInf
  | NInf, z | z, NInf => z
  | Fin a, Fin b => Fin (Rmax a b)
  end.

(** A Python [int] used in float arithmetic. *)
Definition of_int (k : Z) : float64 := Fin (IZR k).
Definition of_nat (n : nat) : float64 := Fin (INR n).

(** complex128 as a pair (real part, imaginary part). *)
Definition complex : Type := (float64 * float64)%type.

Definition c_of_real (x : float64) : complex := (x, Fin 0).

Definition c_add (z w : complex) : complex :=
  (f_add (fst z) (fst w), f_add (snd z) (snd w)).

Definition c_mul (z w : complex) : complex :=
  (f_sub (f_mul (fst z) (fst w)) (f_mul (snd z) (snd w)),
   f_add (f_mul (fst z) (snd w)) (f_mul (snd z) (fst w))).

Definition is_inf (x : float64) : bool :=
  match x with
  | PInf | NInf => true
  | _ => false
  end.

(** [abs] of a complex number (hypot): an infinite part wins over NaN. *)
Definition c_abs (z : complex) : float64 :=
  if is_inf (fst z) || is_inf (snd z) then PInf
  else
    match fst z, snd z with
    | Fin a, Fin b => Fin (sqrt (a * a + b * b))
    | _, _ => NaN
    end.

(** An array is real (float64) or complex (complex128) by its dtype. *)
Inductive ndarray : Type :=
| RealArr (l : list float64)
| CplxArr (l : list complex).

(** [np.iscomplex(x)]: elementwise, true where the imaginary part is not
    zero; all false for an array of a real dtype. *)
Definition iscomplex (x : ndarray) : list bool :=
  match x with
  | RealArr l => map (fun _ => false) l
  | CplxArr l => map (fun z => f_nonzero (snd z)) l
  end.

(** [np.any] on booleans and on floats. *)
Definition any_bool (l : list bool) : bool := existsb (fun b => b) l.
Definition any (l : list float64) : bool := existsb f_nonzero l.

(** [x.real], [x.imag] *)
Definition real (x : ndarray) : list float64 :=
  match x with
  | RealArr l => l
  | CplxArr l => map fst l
  end.

Definition imag (x : ndarray) : list float64 :=
  match x with
  | RealArr l => map (fun _ => Fin 0) l
  | CplxArr l => map snd l
  end.

(** [abs(x)] on an array: always a real array. *)
Definition abs (x : ndarray) : list float64 :=
  match x with
  | RealArr l => map f_abs l
  | CplxArr l => map c_abs l
  end.

(** Broadcast operations on real arrays. *)
Definition log10 (l : list float64) : list float64 := map f_log10 l.
Definition scalar_mul (c : float64) (l : list float64) : list float64 :=
  map (fun x => f_mul c x) l.
Definition mul_scalar (l : list float64) (c : float64) : list float64 :=
  map (fun x => f_mul x c) l.
Definition div_scalar (l : list float64) (c : float64) : list float64 :=
  map (fun x => f_div x c) l.
Definition maximum (l : list float64) (b : float64) : list float64 :=
  map (fun x => f_maximum x b) l.
Definition square (l : list float64) : list float64 :=
  map (fun x => f_mul x x) l.
Definition f_square (x : float64) : float64 := f_mul x x.

(** [np.sum]: the sum of the elements, 0.0 for an empty array. *)
Definition sum (l : list float64) : float64 := fold_left f_add l (Fin 0).

(** [np.ones(M)] *)
Definition ones (M : nat) : list float64 := repeat (Fin 1) M.

(** [np.arange(a, b)] on integers. *)
Definition arange (a b : Z) : list Z :=
  map (fun i => (a + Z.of_nat i)%Z) (seq 0 (Z.to_nat (b - a))).

End Np.
Export Np.

(* ================================================================== *)
(** ** plot_impz.py *)

Module PlotImpz.

(** [calc_n_points], lines 239-253: the value the local variable [IIR]
    receives from the coefficients [self.bb], [self.aa], or the exception
    raised on the way.  [not np.any(aa[1:]) and aa[0] != 0] evaluates
    [aa[0]] only when the first operand is true. *)
Definition calc_n_points_IIR (bb aa : list float64) : result bool :=
  if (len aa =? 1)%Z then
    if (len bb =? 1)%Z then Raise TypeError
    else Ok false
  else
    if (len bb =? 1)%Z then Ok true
    else if negb (Np.any (slice_from1 aa)) then
      a0 <- getitem0 aa ;;
      if f_nonzero a0 then Ok false else Ok true
    else Ok true.

(** [calc_n_points(self, N_user = 0)] *)
Definition calc_n_points (bb aa : list float64) (N_user : Z) : result Z :=
  IIR <- calc_n_points_IIR bb aa ;;
  let N :=
    if (N_user =? 0)%Z then
      if IIR then 100%Z
      else Z.min (len bb) 100
    else N_user in
  Ok N.

(** What [draw_impz] hands to the two stem plots. *)
Record impz_plot : Type := {
  cmplx : bool;                   (* self.cmplx *)
  h : ndarray;                    (* plotted on ax_r *)
  h_i : option (list float64);    (* plotted on ax_i; unbound unless cmplx *)
  bottom : float64
}.

(** [draw_impz], lines 170-184: the numeric part, from the response [h]
    that [impz] returned, the state [log] of the check box [chkLog] and
    the number [ledLogBottom] read from the line edit of that name.  The
    statements before line 170 read widgets (among them [self.chkStep],
    which [__init__] does not create) and call [pyfda_lib.impz]; those
    after line 184 draw.  Neither are part of the model. *)
Definition draw_impz (h : ndarray) (log : bool) (ledLogBottom : float64)
  : impz_plot :=
  let cmplx := any_bool (iscomplex h) in
  let h_i := if cmplx then Some (imag h) else None in
  let h := if cmplx then RealArr (real h) else h in
  if log then
    let bottom := ledLogBottom in
    let h := RealArr (maximum (scalar_mul (Fin 20) (log10 (abs h))) bottom) in
    let h_i :=
      if cmplx then
        option_map
          (fun h_i =>
             maximum (scalar_mul (Fin 20) (log10 (abs (RealArr h_i)))) bottom)
          h_i
      else h_i in
    {| cmplx := cmplx; h := h; h_i := h_i; bottom := bottom |}
  else
    {| cmplx := cmplx; h := h; h_i := h_i; bottom := Fin 0 |}.

End PlotImpz.

(* ================================================================== *)
(** ** numpy.fft and scipy.signal.windows, as far as [calc_win] uses them *)

Module NpFFT.

(** exp(-2 pi i m / n) *)
Definition twiddle (n m : nat) : complex :=
  (Fin (cos (2 * PI * INR m / INR n)), Fin (- sin (2 * PI * INR m / INR n))).

Definition c_sum (l : list complex) : complex :=
  fold_left c_add l (Fin 0, Fin 0).

(** The discrete Fourier transform of [x]:
    X[k] = sum_j x[j] exp(-2 pi i j k / n), n = len(x). *)
Definition dft (x : list complex) : list complex :=
  let n := List.length x in
  map (fun k =>
         c_sum (map (fun jx => c_mul (snd jx) (twiddle n (fst jx * k)))
                    (combine (seq 0 n) x)))
      (seq 0 n).

(** What [fft(a, n)] transforms: [a] cropped or padded with zeros to
    length [n]. *)
Definition pad (a : list float64) (n : nat) : list float64 :=
  firstn n a ++ repeat (Fin 0) (n - List.length a).

(** [fft(a, n)] *)
Definition fft (a : list float64) (n : nat) : result (list complex) :=
  if (n <? 1)%nat then Raise ValueError
  else Ok (dft (map c_of_real (pad a n))).

(** [fftshift(x)]: [x] rolled by [len(x) // 2] places. *)
Definition fftshift {A} (x : list A) : list A :=
  let n := List.length x in
  skipn (n - n / 2) x ++ firstn (n - n / 2) x.

(** Python's [/] on numbers that are not NumPy scalars: a zero divisor
    raises.  [calc_win] uses it for [1. / fb.fil[0]['f_S']] and [fftfreq]
    for [1.0 / (n * d)], so the sample rate is taken to be a Python float
    here; were it a NumPy scalar, both divisions would be [f_div], which
    gives an infinity or NaN with a warning and raises nothing. *)
Definition py_div (x y : float64) : result float64 :=
  if f_nonzero y then Ok (f_div x y) else Raise ZeroDivisionError.

(** [fftfreq(n, d)], the integer array [results] it fills:
    0 .. (n-1)//2 followed by -(n//2) .. -1. *)
Definition fftfreq_integers (n : nat) : list Z :=
  let N := ((Z.of_nat n - 1) / 2 + 1)%Z in
  arange 0 N ++ arange (- (Z.of_nat n / 2)) 0.

(** [fftfreq(n, d)]: those integers times [val = 1.0 / (n * d)]. *)
Definition fftfreq (n : nat) (d : float64) : result (list float64) :=
  val <- py_div (Fin 1) (f_mul (of_nat n) d) ;;
  let results := fftfreq_integers n in
  Ok (map (fun k => f_mul (of_int k) val) results).

End NpFFT.
Export NpFFT.

Module ScipyWindows.

(** A window routine called as [f(M, *args)]. *)
Definition window_fn : Type := nat -> list float64 -> result (list float64).

(** [boxcar(M, sym=True)]: M ones, whatever [sym]. *)
Definition boxcar : window_fn :=
  fun M args =>
    match args with
    | [] | [_] => Ok (ones M)
    | _ => Raise TypeError
    end.

(** [bartlett(M, sym=True)]: the triangle with zero end points; for
    [sym] false it is the window of length M+1 without its last sample. *)
Definition bartlett_samples (M : nat) : list float64 :=
  map (fun n =>
         if Rle_dec (INR n) ((INR M - 1) / 2)
         then Fin (2 * INR n / (INR M - 1))
         else Fin (2 - 2 * INR n / (INR M - 1)))
      (seq 0 M).

Definition bartlett_sym (M : nat) (sym : bool) : list float64 :=
  if (M <=? 1)%nat then ones M
  else if sym then bartlett_samples M
  else removelast (bartlett_samples (M + 1)).

Definition bartlett : window_fn :=
  fun M args =>
    match args with
    | [] => Ok (bartlett_sym M true)
    | [sym] => Ok (bartlett_sym M (f_nonzero sym))
    | _ => Raise TypeError
    end.

(** [getattr(win, name)] restricted to the two routines above. *)
Definition attributes (name : string) : option window_fn :=
  if String.eqb name "boxcar" then Some boxcar
  else if String.eqb name "bartlett" then Some bartlett
  else None.

End ScipyWindows.

(* ================================================================== *)
(** ** plot_fft_win.py *)

Module Plot_FFT_win.

(** [fb.fil[0]['win_params']]: nothing, one number, or a sequence. *)
Inductive win_params_t : Type :=
| PNone
| PScalar (x : float64)
| PSeq (l : list float64).

(** The truth value of the parameters, as [not params] tests it. *)
Definition truth (p : win_params_t) : bool :=
  match p with
  | PNone => false
  | PScalar x => f_nonzero x
  | PSeq l => negb (Nat.eqb (List.length l) 0)
  end.

Definition isscalar (p : win_params_t) : bool :=
  match p with
  | PScalar _ => true
  | _ => false
  end.

(** The entries of [fb.fil[0]] that [calc_win] reads. *)
Record filter_dict : Type := {
  win_len : nat;
  win_params : win_params_t;
  win_fnct : string;
  f_S : float64
}.

(** The attributes of [self] that [calc_win] and [update_view] read or
    assign, the states of the check boxes and the text of [led_N]
    included. *)
Record self_t : Type := mk_self {
  chk_auto_N : bool;
  chk_norm_f : bool;
  chk_log_t : bool;
  chk_log_f : bool;
  led_N : string;
  bottom_t : float64;
  bottom_f : float64;
  N : nat;
  t : list nat;
  win : list float64;
  nenbw : float64;
  scale : float64;
  F : list float64;
  Win : list float64
}.

Definition set_chk_norm_f (v : bool) (s : self_t) : self_t :=
  mk_self (chk_auto_N s) v (chk_log_t s) (chk_log_f s) (led_N s)
          (bottom_t s) (bottom_f s) (N s) (t s) (win s) (nenbw s) (scale s)
          (F s) (Win s).
Definition set_led_N (v : string) (s : self_t) : self_t :=
  mk_self (chk_auto_N s) (chk_norm_f s) (chk_log_t s) (chk_log_f s) v
          (bottom_t s) (bottom_f s) (N s) (t s) (win s) (nenbw s) (scale s)
          (F s) (Win s).
Definition set_N (v : nat) (s : self_t) : self_t :=
  mk_self (chk_auto_N s) (chk_norm_f s) (chk_log_t s) (chk_log_f s) (led_N s)
          (bottom_t s) (bottom_f s) v (t s) (win s) (nenbw s) (scale s)
          (F s) (Win s).
Definition set_t (v : list nat) (s : self_t) : self_t :=
  mk_self (chk_auto_N s) (chk_norm_f s) (chk_log_t s) (chk_log_f s) (led_N s)
          (bottom_t s) (bottom_f s) (N s) v (win s) (nenbw s) (scale s)
          (F s) (Win s).
Definition set_win (v : list float64) (s : self_t) : self_t :=
  mk_self (chk_auto_N s) (chk_norm_f s) (chk_log_t s) (chk_log_f s) (led_N s)
          (bottom_t s) (bottom_f s) (N s) (t s) v (nenbw s) (scale s)
          (F s) (Win s).
Definition set_nenbw (v : float64) (s : self_t) : self_t :=
  mk_self (chk_auto_N s) (chk_norm_f s) (chk_log_t s) (chk_log_f s) (led_N s)
          (bottom_t s) (bottom_f s) (N s) (t s) (win s) v (scale s)
          (F s) (Win s).
Definition set_scale (v : float64) (s : self_t) : self_t :=
  mk_self (chk_auto_N s) (chk_norm_f s) (chk_log_t s) (chk_log_f s) (led_N s)
          (bottom_t s) (bottom_f s) (N s) (t s) (win s) (nenbw s) v
          (F s) (Win s).
Definition set_F (v : list float64) (s : self_t) : self_t :=
  mk_self (chk_auto_N s) (chk_norm_f s) (chk_log_t s) (chk_log_f s) (led_N s)
          (bottom_t s) (bottom_f s) (N s) (t s) (win s) (nenbw s) (scale s)
          v (Win s).
Definition set_Win (v : list float64) (s : self_t) : self_t :=
  mk_self (chk_auto_N s) (chk_norm_f s) (chk_log_t s) (chk_log_f s) (led_N s)
          (bottom_t s) (bottom_f s) (N s) (t s) (win s) (nenbw s) (scale s)
          (F s) v.

Section Methods.

(** The module [scipy.signal.windows] as [getattr] sees it, and
    [pyfda_lib.safe_eval(text, default, sign='pos', return_type='int')];
    neither is part of these two files. *)
Variable windows : string -> option ScipyWindows.window_fn.
Variable safe_eval : string -> nat -> nat.

(** [getattr(win, name)] *)
Definition getattr_win (name : string) : result ScipyWindows.window_fn :=
  match windows name with
  | Some f => Ok f
  | None => Raise AttributeError
  end.

(** [calc_win], lines 231-235: the value assigned to [self.N]. *)
Definition calc_win_N (fil : filter_dict) (self : self_t) : nat :=
  if chk_auto_N self then win_len fil
  else safe_eval (led_N self) (N self).

(** [calc_win], lines 238-244: the window routine called with [n] and
    no, one, or the unpacked parameters. *)
Definition calc_win_samples (fil : filter_dict) (n : nat)
  : result (list float64) :=
  let params := win_params fil in
  if negb (truth params) then
    f <- getattr_win (win_fnct fil) ;; f n []
  else if isscalar params then
    f <- getattr_win (win_fnct fil) ;;
    f n (match params with PScalar x => [x] | _ => [] end)
  else
    f <- getattr_win (win_fnct fil) ;;
    f n (match params with PSeq l => l | _ => [] end).

(** [calc_win(self)].  An exception abandons the call; what was
    assigned before it is not kept. *)
Definition calc_win (fil : filter_dict) (self : self_t) : result self_t :=
  let self :=
    if chk_auto_N self then
      let self := set_N (win_len fil) self in
      set_led_N (str (N self)) self
    else
      set_N (safe_eval (led_N self) (N self)) self in
  let self := set_t (seq 0 (N self)) self in
  w <- calc_win_samples fil (N self) ;;
  let self := set_win w self in
  let self :=
    set_nenbw (f_div (f_mul (of_nat (N self)) (sum (square (win self))))
                     (f_square (sum (win self)))) self in
  let self := set_scale (f_div (of_nat (N self)) (sum (win self))) self in
  let self :=
    if chk_norm_f self then set_win (mul_scalar (win self) (scale self)) self
    else self in
  d <- py_div (Fin 1) (f_S fil) ;;
  freqs <- fftfreq (N self * 8) d ;;
  let self := set_F (fftshift freqs) self in
  X <- fft (win self) (N self * 8) ;;
  let self :=
    set_Win (div_scalar (fftshift (map c_abs X)) (of_nat (N self))) self in
  Ok self.

(** [update_view(self)]: the ordinates of the two curves it plots, the
    window over [self.t] and its spectrum over [self.F]. *)
Definition update_view (self : self_t) : list float64 * list float64 :=
  ((if chk_log_t self then
      maximum (scalar_mul (Fin 20) (log10 (win self))) (bottom_t self)
    else win self),
   (if chk_log_f self then
      maximum (scalar_mul (Fin 20) (log10 (Win self))) (bottom_f self)
    else Win self)).

End Methods.

End Plot_FFT_win.

(* ================================================================== *)
(** ** The two quotients of [calc_win] in binary64 arithmetic

    The same two lines on the kernel's IEEE 754 binary64 numbers, to
    check the values of the rounding-free model at the inputs of the
    examples. *)

Module Binary64.

Import PrimFloat.
Local Open Scope float_scope.

(** A positive Python [int] below 2^53, converted exactly. *)
Fixpoint of_pos (p : positive) : float :=
  match p with
  | xH => 1
  | xO q => 2 * of_pos q
  | xI q => 2 * of_pos q + 1
  end.

Definition of_nat (n : nat) : float :=
  match n with
  | O => 0
  | S _ => of_pos (Pos.of_nat n)
  end.

(** [np.sum] adds the elements from the left here; NumPy adds long arrays
    pairwise.  On the arrays of ones and of zeros used below every partial
    sum is exact, so both orders give the same value. *)
Definition sum (l : list float) : float := fold_left PrimFloat.add l 0.
Definition square (l : list float) : list float := map (fun x => x * x) l.
Definition one : float := 1.
Definition ones (M : nat) : list float := repeat 1 M.
Definition zeros (M : nat) : list float := repeat 0 M.

(** [calc_win], line 246 *)
Definition nenbw (N : nat) (win : list float) : float :=
  of_nat N * sum (square win) / (let s := sum win in s * s).

(** [calc_win], line 247 *)
Definition scale (N : nat) (win : list float) : float :=
  of_nat N / sum win.

End Binary64.

(* ================================================================== *)
(** ** The specification's reading of the two rules compared below *)

Module Spec.

Inductive filter_class : Type := FIR | IIR.

(** What [resolve_length] decides about a pair of coefficient sequences. *)
Inductive outcome : Type :=
| DegenerateFilter
| Classified (c : filter_class)
| Failure (e : exn).

Definition is_zero (x : float64) : bool := negb (f_nonzero x).

(** The classification rule in the order the specification gives it.  A
    denominator without a first coefficient has no first coefficient that
    is nonzero. *)
Definition classify (numerator denominator : list float64) : outcome :=
  if Nat.eqb (List.length denominator) 1 && Nat.eqb (List.length numerator) 1
  then DegenerateFilter
  else if Nat.eqb (List.length denominator) 1 then Classified FIR
  else if Nat.eqb (List.length numerator) 1 then Classified IIR
  else if forallb is_zero (tl denominator)
          && match denominator with
             | a0 :: _ => f_nonzero a0
             | [] => false
             end
  then Classified FIR
  else Classified IIR.

(** The outcome of the code: its [TypeError] is the specification's
    DegenerateFilter, [IIR = True] is IIR and [IIR = False] is FIR. *)
Definition outcome_of (r : result bool) : outcome :=
  match r with
  | Ok true => Classified IIR
  | Ok false => Classified FIR
  | Raise TypeError => DegenerateFilter
  | Raise e => Failure e
  end.

(** The display transform with the guard [eps] inside the logarithm. *)
Definition to_display (eps : R) (series : list float64) (log : bool)
           (floor_db : float64) : list float64 :=
  if log then
    map (fun v =>
           f_maximum
             (f_mul (Fin 20) (f_log10 (f_add (f_abs v) (Fin eps))))
             floor_db)
        series
  else series.

End Spec.

(* ================================================================== *)
(** ** Concrete settings used in the examples *)

Module Examples.

Import Plot_FFT_win.

(** The widget as [__init__] leaves it (N = 128, floors -60 and -80 dB),
    with "N Auto" ticked so that [self.N] is taken from the filter
    dictionary, and "Norm" as given; the attributes [calc_win] has yet to
    assign hold empty arrays and zeros. *)
Definition self_init (norm : bool) : self_t :=
  mk_self true norm false true "128" (Fin (-60)) (Fin (-80)) 128
          [] [] (Fin 0) (Fin 0) [] [].

(** [safe_eval] when it falls back on the default it is given. *)
Definition safe_eval_default : string -> nat -> nat :=
  fun _ default => default.

(** [fb.fil[0]] for a window without parameters, at f_S = 1. *)
Definition fil_of (name : string) (M : nat) : filter_dict :=
  {| win_len := M; win_params := PNone; win_fnct := name; f_S := Fin 1 |}.

End Examples.

(* ================================================================== *)
(** ** plot_fft_win.py: [draw] and [process_sig_rx] *)

(** [len(x)] of an array of either dtype. *)
Definition ndarray_size (x : ndarray) : nat :=
  match x with
  | RealArr l => List.length l
  | CplxArr l => List.length l
  end.


Module SigRx.

Import Plot_FFT_win.

(** A signal dictionary: keys and values are strings, looked up by key. *)
Definition dict : Type := list (string * string).

(** [d.get(key)], [None] for a key that is not there. *)
Fixpoint dict_get (d : dict) (key : string) : option string :=
  match d with
  | [] => None
  | (k, v) :: rest => if String.eqb k key then Some v else dict_get rest key
  end.

(** [key in d] *)
Definition contains (key : string) (d : dict) : bool :=
  match dict_get d key with
  | Some _ => true
  | None => false
  end.

(** ['ui_changed' in d and d['ui_changed'] == 'resized']: the subscript
    is evaluated only for a key that is there. *)
Definition resized (d : dict) : bool :=
  match dict_get d "ui_changed" with
  | Some v => String.eqb v "resized"
  | None => false
  end.

(** The widget with its three flags.  [__init__] assigns [needs_calc]
    only; [needs_draw] and [needs_redraw] do not exist ([None] here) until
    [process_sig_rx] assigns them.  [core] holds the attributes of
    [self_t]. *)
Record rx_state : Type := mk_rx {
  core : self_t;
  needs_calc : bool;
  needs_draw : option bool;
  needs_redraw : option bool
}.

(** Reading an attribute that may not have been assigned yet. *)
Definition read_attr (a : option bool) : result bool :=
  match a with
  | Some b => Ok b
  | None => Raise AttributeError
  end.

(** Which of its three methods a call of [process_sig_rx] ran, with the
    curves the method plotted. *)
Inductive done : Type :=
| DidDraw (curves : list float64 * list float64)
| DidUpdateView (curves : list float64 * list float64)
| DidRedraw
| DidNothing.

Section Methods.

Variable windows : string -> option ScipyWindows.window_fn.
Variable safe_eval : string -> nat -> nat.

(** [draw(self)]: [init_axes] (a title), [calc_win], [update_view]. *)
Definition draw (fil : filter_dict) (self : self_t)
  : result (self_t * (list float64 * list float64)) :=
  self <- calc_win windows safe_eval fil self ;;
  Ok (self, update_view self).

(** [process_sig_rx(self, dict_sig=None)], with [self.isVisible()] given
    as [visible].  [x or y] reads [y] only when [x] is false. *)
Definition process_sig_rx (fil : filter_dict) (dict_sig : option dict)
           (visible : bool) (st : rx_state) : result (rx_state * done) :=
  match dict_sig with
  | None => Raise TypeError
  | Some d =>
      if visible then
        if contains "data_changed" d || contains "home" d || needs_calc st then
          r <- draw fil (core st) ;;
          Ok (mk_rx (fst r) false (Some false) (needs_redraw st),
              DidDraw (snd r))
        else
          c <- (if contains "view_changed" d then Ok true
                else read_attr (needs_draw st)) ;;
          if c then
            Ok (mk_rx (core st) (needs_calc st) (Some false) (needs_redraw st),
                DidUpdateView (update_view (core st)))
          else
            c <- (if resized d then Ok true
                  else read_attr (needs_redraw st)) ;;
            if c then Ok (st, DidRedraw) else Ok (st, DidNothing)
      else
        if contains "data_changed" d then
          Ok (mk_rx (core st) true (needs_draw st) (needs_redraw st), DidNothing)
        else if contains "view_changed" d then
          Ok (mk_rx (core st) (needs_calc st) (Some true) (needs_redraw st),
              DidNothing)
        else if resized d then
          Ok (mk_rx (core st) (needs_calc st) (needs_draw st) (Some true),
              DidNothing)
        else Ok (st, DidNothing)
  end.

End Methods.

(** The flags as [__init__] leaves them. *)
Definition init_rx (self : self_t) : rx_state := mk_rx self false None None.

End SigRx.

(* ================================================================== *)
(** ** Properties *)

Import PlotImpz.

(** *** Arithmetic of the float64 model *)

Lemma Rsgn_pos (r : R) : 0 < r -> Rsgn r = Gt.
Proof.
  intros H. unfold Rsgn.
  destruct (total_order_T r 0) as [[Hlt | Heq] | Hgt]; try reflexivity; lra.
Qed.

Lemma Rsgn_zero : Rsgn 0 = Eq.
Proof.
  unfold Rsgn.
  destruct (total_order_T 0 0) as [[Hlt | Heq] | Hgt]; try reflexivity; lra.
Qed.

Lemma Rsgn_neg (r : R) : r < 0 -> Rsgn r = Lt.
Proof.
  intros H. unfold Rsgn.
  destruct (total_order_T r 0) as [[Hlt | Heq] | Hgt]; try reflexivity; lra.
Qed.

Lemma f_nonzero_Fin (r : R) : r <> 0 -> f_nonzero (Fin r) = true.
Proof.
  intros H. unfold f_nonzero. destruct (Req_EM_T r 0); [contradiction | reflexivity].
Qed.

Lemma f_nonzero_zero : f_nonzero (Fin 0) = false.
Proof.
  unfold f_nonzero. destruct (Req_EM_T 0 0); [reflexivity | lra].
Qed.

Lemma f_nonzero_false (x : float64) : f_nonzero x = false -> x = Fin 0.
Proof.
  destruct x as [r | | |]; simpl; try discriminate.
  destruct (Req_EM_T r 0) as [-> | _]; [reflexivity | discriminate].
Qed.

(** *** Lengths as Python sees them *)

Lemma len_eqb_1 {A} (s : list A) : (len s =? 1)%Z = Nat.eqb (List.length s) 1.
Proof.
  unfold len. destruct (Nat.eqb_spec (List.length s) 1) as [E | E].
  - rewrite E. reflexivity.
  - apply Z.eqb_neq. lia.
Qed.

Lemma forallb_is_zero (l : list float64) :
  forallb Spec.is_zero l = negb (Np.any l).
Proof.
  unfold Np.any, Spec.is_zero.
  induction l as [| x l IH]; simpl; [reflexivity |].
  rewrite IH. destruct (f_nonzero x); reflexivity.
Qed.

(** *** calc_n_points *)

(** The classification is defined as soon as the filter is not degenerate
    and has a denominator coefficient to look at, or a single numerator
    coefficient. *)
Lemma calc_n_points_IIR_defined (bb aa : list float64) :
  aa <> [] \/ List.length bb = 1%nat ->
  ~ (List.length aa = 1%nat /\ List.length bb = 1%nat) ->
  exists IIR, calc_n_points_IIR bb aa = Ok IIR.
Proof.
  intros Hne Hdeg. unfold calc_n_points_IIR.
  rewrite !len_eqb_1.
  destruct (Nat.eqb_spec (List.length aa) 1) as [Ha | Ha];
    destruct (Nat.eqb_spec (List.length bb) 1) as [Hb | Hb].
  - exfalso. apply Hdeg. split; assumption.
  - eexists; reflexivity.
  - eexists; reflexivity.
  - destruct Hne as [Hne | Hne]; [| contradiction].
    destruct aa as [| a0 rest]; [contradiction |].
    simpl. destruct (negb (Np.any (slice_from1 (a0 :: rest))));
      [| eexists; reflexivity].
    destruct (f_nonzero a0); eexists; reflexivity.
Qed.

(** C1, as the code has it: for every numerator [bb] and every denominator
    [aa] that is not empty (or any denominator, when [bb] has length 1),
    [calc_n_points] classifies in the priority order of the specification:
    both of length 1 is the error; else a denominator of length 1 is FIR;
    else a numerator of length 1 is IIR; else FIR when every denominator
    coefficient after the first is zero and the first is not; IIR
    otherwise. *)
Theorem calc_n_points_IIR_priority (bb aa : list float64) :
  aa <> [] \/ List.length bb = 1%nat ->
  Spec.outcome_of (calc_n_points_IIR bb aa) = Spec.classify bb aa.
Proof.
  intros Hne. unfold calc_n_points_IIR, Spec.classify.
  rewrite !len_eqb_1.
  destruct (Nat.eqb_spec (List.length aa) 1) as [Ha | Ha];
    destruct (Nat.eqb_spec (List.length bb) 1) as [Hb | Hb];
    simpl; try reflexivity.
  destruct Hne as [Hne | Hne]; [| contradiction].
  destruct aa as [| a0 rest]; [contradiction |].
  rewrite forallb_is_zero. unfold slice_from1. simpl.
  destruct (Np.any rest); simpl; [reflexivity |].
  destruct (f_nonzero a0); reflexivity.
Qed.

Lemma calc_n_points_IIR_priority_witness :
  Spec.outcome_of (calc_n_points_IIR [Fin 1; Fin 2] [Fin 2; Fin 0; Fin 0])
  = Spec.classify [Fin 1; Fin 2] [Fin 2; Fin 0; Fin 0].
Proof.
  apply (calc_n_points_IIR_priority [Fin 1; Fin 2] [Fin 2; Fin 0; Fin 0]).
  left. discriminate.
Defined.

(** C1 as stated fails for an empty denominator: with two numerator
    coefficients the code indexes [aa[0]] and raises IndexError, where the
    priority order ends in a classification. *)
Lemma calc_n_points_IIR_empty_denominator :
  calc_n_points_IIR [Fin 1; Fin 2] [] = Raise IndexError /\
  Spec.outcome_of (calc_n_points_IIR [Fin 1; Fin 2] [])
  <> Spec.classify [Fin 1; Fin 2] [].
Proof.
  split; [reflexivity |]. simpl. discriminate.
Qed.

(** C2, as the code has it: for every filter that is not degenerate and
    has a denominator that is not empty (or a numerator of length 1), the
    filter is classified, a request of 0 points resolves to
    min(len(bb), 100) when it is FIR and to 100 when it is IIR, and a
    positive request is returned as it is, whatever the class. *)
Theorem calc_n_points_resolves (bb aa : list float64) (N_user : Z) :
  aa <> [] \/ List.length bb = 1%nat ->
  ~ (List.length aa = 1%nat /\ List.length bb = 1%nat) ->
  exists IIR : bool,
    calc_n_points_IIR bb aa = Ok IIR /\
    (N_user = 0%Z ->
     calc_n_points bb aa N_user
     = Ok (if IIR then 100%Z else Z.min (len bb) 100)) /\
    ((0 < N_user)%Z -> calc_n_points bb aa N_user = Ok N_user).
Proof.
  intros Hne Hdeg.
  destruct (calc_n_points_IIR_defined bb aa Hne Hdeg) as [IIR Hc].
  exists IIR. split; [exact Hc |].
  unfold calc_n_points. rewrite Hc. simpl. split.
  - intros ->. reflexivity.
  - intros Hpos. destruct (Z.eqb_spec N_user 0) as [E | _]; [lia | reflexivity].
Qed.

Lemma calc_n_points_resolves_witness :
  calc_n_points [Fin 1; Fin 1; Fin 1] [Fin 1] 0 = Ok 3%Z /\
  calc_n_points [Fin 1] [Fin 1; Fin (-0.5)] 0 = Ok 100%Z /\
  calc_n_points [Fin 1] [Fin 1; Fin (-0.5)] 7 = Ok 7%Z.
Proof.
  split; [| split].
  - destruct (calc_n_points_resolves [Fin 1; Fin 1; Fin 1] [Fin 1] 0)
      as [IIR [Hc [H0 _]]].
    + left. discriminate.
    + simpl. intros [_ H]. discriminate H.
    + rewrite (H0 eq_refl). injection Hc as <-. reflexivity.
  - destruct (calc_n_points_resolves [Fin 1] [Fin 1; Fin (-0.5)] 0)
      as [IIR [Hc [H0 _]]].
    + left. discriminate.
    + simpl. intros [H _]. discriminate H.
    + rewrite (H0 eq_refl). injection Hc as <-. reflexivity.
  - destruct (calc_n_points_resolves [Fin 1] [Fin 1; Fin (-0.5)] 7)
      as [IIR [_ [_ Hpos]]].
    + left. discriminate.
    + simpl. intros [H _]. discriminate H.
    + apply Hpos. reflexivity.
Defined.

(** C2 as stated fails for an empty denominator: the filter is not
    degenerate and 5 points are requested, but the classification comes
    first and raises IndexError. *)
Lemma calc_n_points_empty_denominator :
  ~ (List.length (@nil float64) = 1%nat
     /\ List.length [Fin 1; Fin 2] = 1%nat) /\
  calc_n_points [Fin 1; Fin 2] [] 5 = Raise IndexError /\
  calc_n_points [Fin 1; Fin 2] [] 5 <> Ok 5%Z.
Proof.
  split; [| split].
  - simpl. intros [H _]. discriminate H.
  - reflexivity.
  - discriminate.
Qed.

(** C3: [calc_n_points] raises its TypeError (the specification's
    DegenerateFilter) exactly when numerator and denominator both have
    length 1; the test reads the two lengths only, so neither the requested
    length nor a coefficient value has a say, and no length is computed
    before it. *)
Theorem calc_n_points_degenerate_iff (bb aa : list float64) (N_user : Z) :
  calc_n_points bb aa N_user = Raise TypeError
  <-> (List.length aa = 1%nat /\ List.length bb = 1%nat).
Proof.
  unfold calc_n_points, calc_n_points_IIR. rewrite !len_eqb_1.
  destruct (Nat.eqb_spec (List.length aa) 1) as [Ha | Ha];
    destruct (Nat.eqb_spec (List.length bb) 1) as [Hb | Hb]; simpl.
  - split; [intros _; split; assumption | reflexivity].
  - split; [discriminate | intros [_ H]; contradiction].
  - split; [discriminate | intros [H _]; contradiction].
  - split; [| intros [H _]; contradiction].
    destruct (negb (Np.any (slice_from1 aa))); simpl; [| discriminate].
    destruct aa as [| a0 rest]; simpl; [discriminate |].
    destruct (f_nonzero a0); discriminate.
Qed.

(** C10: a denominator of length 1 makes every filter with more than one
    numerator coefficient FIR, whatever the single denominator coefficient
    is, zero included, and 0 requested points resolve to min(len(bb), 100);
    the test that the first coefficient is not zero is reached only for
    longer denominators, where a zero first coefficient before zeros gives
    IIR. *)
Theorem calc_n_points_single_denominator (bb : list float64) (a0 : float64) :
  (1 < List.length bb)%nat ->
  calc_n_points_IIR bb [a0] = Ok false /\
  calc_n_points bb [a0] 0 = Ok (Z.min (len bb) 100) /\
  (forall rest, rest <> [] -> Np.any rest = false ->
                calc_n_points_IIR bb (Fin 0 :: rest) = Ok true).
Proof.
  intros Hb.
  assert (E : calc_n_points_IIR bb [a0] = Ok false).
  { unfold calc_n_points_IIR. rewrite !len_eqb_1. simpl.
    destruct (Nat.eqb_spec (List.length bb) 1) as [H | _]; [lia | reflexivity]. }
  split; [exact E | split].
  - unfold calc_n_points. rewrite E. reflexivity.
  - intros rest Hrest Hany. unfold calc_n_points_IIR. rewrite !len_eqb_1.
    destruct rest as [| r rest']; [contradiction |].
    destruct (Nat.eqb_spec (List.length bb) 1) as [H | _]; [lia |].
    cbn [List.length Nat.eqb slice_from1 skipn].
    rewrite Hany. cbn [negb getitem0 bind]. rewrite f_nonzero_zero. reflexivity.
Qed.

Lemma calc_n_points_single_denominator_witness :
  calc_n_points_IIR [Fin 1; Fin 2] [Fin 0] = Ok false /\
  calc_n_points [Fin 1; Fin 2] [Fin 0] 0 = Ok 2%Z /\
  (forall rest, rest <> [] -> Np.any rest = false ->
                calc_n_points_IIR [Fin 1; Fin 2] (Fin 0 :: rest) = Ok true).
Proof.
  apply (calc_n_points_single_denominator [Fin 1; Fin 2] (Fin 0)).
  simpl. lia.
Defined.

(** *** draw_impz *)

Lemma f_nonzero_true_iff (x : float64) : f_nonzero x = true <-> x <> Fin 0.
Proof.
  split.
  - intros H E. subst x. rewrite f_nonzero_zero in H. discriminate.
  - intros H. destruct (f_nonzero x) eqn:E; [reflexivity |].
    apply f_nonzero_false in E. contradiction.
Qed.

Lemma any_bool_iscomplex (x : ndarray) :
  any_bool (iscomplex x) = true <-> exists y, In y (imag x) /\ y <> Fin 0.
Proof.
  unfold any_bool. rewrite existsb_exists. destruct x as [l | l]; simpl.
  - split.
    + intros [b [Hin Hb]]. apply in_map_iff in Hin as [_ [E _]].
      subst b. discriminate.
    + intros [y [Hin Hy]]. apply in_map_iff in Hin as [_ [E _]].
      subst y. contradiction.
  - split.
    + intros [b [Hin Hb]]. apply in_map_iff in Hin as [z [E Hz]].
      exists (snd z). split; [apply (in_map snd); exact Hz |].
      apply f_nonzero_true_iff. congruence.
    + intros [y [Hin Hy]]. apply in_map_iff in Hin as [z [E Hz]].
      exists (f_nonzero (snd z)).
      split; [apply (in_map (fun w => f_nonzero (snd w))); exact Hz |].
      rewrite E. apply f_nonzero_true_iff. exact Hy.
Qed.

(** C9: [self.cmplx] is true exactly when some element of the response has
    an imaginary part that is not zero, whatever the dtype of the array; the
    series handed to the two plots are then the real and the imaginary
    parts, element by element (read here without the dB scale, [log] off),
    and otherwise the response itself with no second series. *)
Theorem draw_impz_cmplx (h0 : ndarray) (log : bool) (ledLogBottom : float64) :
  (cmplx (draw_impz h0 log ledLogBottom) = true
   <-> exists y, In y (imag h0) /\ y <> Fin 0) /\
  h (draw_impz h0 false ledLogBottom)
  = (if cmplx (draw_impz h0 log ledLogBottom) then RealArr (real h0) else h0) /\
  h_i (draw_impz h0 false ledLogBottom)
  = (if cmplx (draw_impz h0 log ledLogBottom) then Some (imag h0) else None).
Proof.
  assert (Ec : forall l, cmplx (draw_impz h0 l ledLogBottom)
                         = any_bool (iscomplex h0)).
  { intros l. unfold draw_impz. destruct l; reflexivity. }
  rewrite Ec. split; [apply any_bool_iscomplex |].
  unfold draw_impz. simpl. split; reflexivity.
Qed.

(** One element on the dB scale, as both widgets write it. *)
Lemma dB_of_finite (v f : R) :
  0 <= v ->
  f_maximum (f_mul (Fin 20) (f_log10 (Fin v))) (Fin f)
  = Fin (if Req_EM_T v 0 then f else Rmax (20 * (ln v / ln 10)) f).
Proof.
  intros Hv. unfold f_log10.
  destruct (Req_EM_T v 0) as [-> | Hne].
  - rewrite Rsgn_zero. simpl.
    rewrite (Rsgn_pos 20) by lra. reflexivity.
  - rewrite (Rsgn_pos v) by lra. reflexivity.
Qed.

(** C5, as the code has it: with [log] set every element v becomes
    max(20 log10(|v|), floor) in [draw_impz], in the series for the real
    axis and in the series for the imaginary axis alike, and
    max(20 log10(v), floor) in [update_view], which takes no absolute
    value; nothing is added inside the logarithm.  A zero element has
    log10 = -inf, which the maximum replaces by the floor, so a finite
    element (not negative, in [update_view]) and a finite floor give a
    finite value that is at least the floor.  With [log] off each series
    is left as it is. *)
Theorem display_transform_clamps
        (h0 : ndarray) (self : Plot_FFT_win.self_t) (floor : float64) (v f : R) :
  h (draw_impz h0 true floor)
  = RealArr (map (fun m => f_maximum (f_mul (Fin 20) (f_log10 m)) floor)
                 (Np.abs (if any_bool (iscomplex h0)
                          then RealArr (real h0) else h0))) /\
  h (draw_impz h0 false floor)
  = (if any_bool (iscomplex h0) then RealArr (real h0) else h0) /\
  h_i (draw_impz h0 true floor)
  = (if any_bool (iscomplex h0)
     then Some (map (fun m => f_maximum (f_mul (Fin 20) (f_log10 m)) floor)
                    (map f_abs (imag h0)))
     else None) /\
  h_i (draw_impz h0 false floor)
  = (if any_bool (iscomplex h0) then Some (imag h0) else None) /\
  Plot_FFT_win.update_view self
  = ((if Plot_FFT_win.chk_log_t self
      then map (fun x => f_maximum (f_mul (Fin 20) (f_log10 x))
                                   (Plot_FFT_win.bottom_t self))
               (Plot_FFT_win.win self)
      else Plot_FFT_win.win self),
     (if Plot_FFT_win.chk_log_f self
      then map (fun x => f_maximum (f_mul (Fin 20) (f_log10 x))
                                   (Plot_FFT_win.bottom_f self))
               (Plot_FFT_win.Win self)
      else Plot_FFT_win.Win self)) /\
  (exists y,
      f_maximum (f_mul (Fin 20) (f_log10 (f_abs (Fin v)))) (Fin f) = Fin y /\
      f <= y /\ (v = 0 -> y = f)) /\
  (0 <= v ->
   f_maximum (f_mul (Fin 20) (f_log10 (Fin v))) (Fin f)
   = f_maximum (f_mul (Fin 20) (f_log10 (f_abs (Fin v)))) (Fin f)).
Proof.
  split; [| split; [| split; [| split; [| split; [| split]]]]].
  - unfold draw_impz. simpl. unfold maximum, scalar_mul, log10.
    rewrite !map_map. reflexivity.
  - reflexivity.
  - unfold draw_impz. destruct (any_bool (iscomplex h0)); [| reflexivity].
    cbn [h_i option_map Np.abs]. unfold maximum, scalar_mul, log10.
    rewrite !map_map. reflexivity.
  - unfold draw_impz. destruct (any_bool (iscomplex h0)); reflexivity.
  - unfold Plot_FFT_win.update_view, maximum, scalar_mul, log10.
    rewrite !map_map. reflexivity.
  - simpl f_abs. rewrite dB_of_finite by apply Rabs_pos.
    eexists. split; [reflexivity |].
    destruct (Req_EM_T (Rabs v) 0) as [E | E].
    + split; [lra | reflexivity].
    + split; [apply Rmax_r |].
      intros ->. rewrite Rabs_R0 in E. contradiction.
  - intros Hv. simpl f_abs. rewrite Rabs_right by lra. reflexivity.
Qed.

Lemma display_transform_clamps_witness :
  h (draw_impz (RealArr [Fin 0; Fin 1]) true (Fin (-80)))
  = RealArr [Fin (-80); Fin 0] /\
  h_i (draw_impz (CplxArr [(Fin 1, Fin 0); (Fin 0, Fin 1)]) true (Fin (-80)))
  = Some [Fin (-80); Fin 0].
Proof.
  split.
  - destruct (display_transform_clamps
                (RealArr [Fin 0; Fin 1])
                (Plot_FFT_win.mk_self false false false false EmptyString
                                      (Fin 0) (Fin 0) 0 [] [] (Fin 0) (Fin 0) [] [])
                (Fin (-80)) 0 (-80)) as [E _].
    rewrite E. cbn [any_bool iscomplex existsb map Np.abs f_abs orb].
    rewrite Rabs_R0, Rabs_R1.
    rewrite !dB_of_finite by lra.
    destruct (Req_EM_T 0 0) as [_ | N0]; [| lra].
    destruct (Req_EM_T 1 0) as [E1 | _]; [lra |].
    rewrite ln_1. unfold Rdiv. rewrite Rmult_0_l, Rmult_0_r.
    rewrite Rmax_left by lra. reflexivity.
  - destruct (display_transform_clamps
                (CplxArr [(Fin 1, Fin 0); (Fin 0, Fin 1)])
                (Plot_FFT_win.mk_self false false false false EmptyString
                                      (Fin 0) (Fin 0) 0 [] [] (Fin 0) (Fin 0) [] [])
                (Fin (-80)) 0 (-80)) as [_ [_ [E _]]].
    rewrite E. cbn [any_bool iscomplex existsb map snd imag].
    rewrite f_nonzero_zero, (f_nonzero_Fin 1) by lra.
    cbn [orb map f_abs].
    rewrite Rabs_R0, Rabs_R1.
    rewrite !dB_of_finite by lra.
    destruct (Req_EM_T 0 0) as [_ | N0]; [| lra].
    destruct (Req_EM_T 1 0) as [E1 | _]; [lra |].
    rewrite ln_1. unfold Rdiv. rewrite Rmult_0_l, Rmult_0_r.
    rewrite Rmax_left by lra. reflexivity.
Defined.

(** C5 as stated fails: no positive guard inside the logarithm reproduces
    what [draw_impz] plots.  The element 0 comes out as the floor however
    low the floor is, where a guarded logarithm would stop at
    20 log10(eps); and [update_view] turns a negative window sample into
    NaN. *)
Lemma display_transform_no_guard :
  ~ (exists eps : R,
        0 < eps /\
        forall floor_db : R,
          h (draw_impz (RealArr [Fin 0]) true (Fin floor_db))
          = RealArr (Spec.to_display eps [Fin 0] true (Fin floor_db))) /\
  fst (Plot_FFT_win.update_view
         (Plot_FFT_win.mk_self false false true false EmptyString
                               (Fin (-60)) (Fin (-80)) 1 [0%nat] [Fin (-1)]
                               (Fin 1) (Fin (-1)) [] []))
  = [NaN].
Proof.
  split.
  - intros [eps [Hpos H]].
    specialize (H (20 * (ln eps / ln 10) - 1)).
    unfold draw_impz, Spec.to_display, maximum, scalar_mul, log10 in H.
    cbn [any_bool iscomplex existsb map Np.abs f_abs f_add orb h] in H.
    rewrite Rabs_R0, Rplus_0_l in H.
    rewrite !dB_of_finite in H by lra.
    destruct (Req_EM_T 0 0) as [_ | E0]; [| lra].
    destruct (Req_EM_T eps 0) as [E2 | _]; [lra |].
    injection H as H.
    rewrite Rmax_left in H by lra. lra.
  - unfold Plot_FFT_win.update_view. simpl.
    rewrite (Rsgn_neg (-1)) by lra. reflexivity.
Qed.

(** *** calc_win *)

Import Plot_FFT_win.

Lemma f_div_Fin (a b : R) : b <> 0 -> f_div (Fin a) (Fin b) = Fin (a / b).
Proof.
  intros H. unfold f_div. destruct (Req_EM_T b 0); [contradiction | reflexivity].
Qed.

Lemma py_div_Fin (a b : R) : b <> 0 -> py_div (Fin a) (Fin b) = Ok (Fin (a / b)).
Proof.
  intros H. unfold py_div. rewrite f_nonzero_Fin by exact H.
  rewrite f_div_Fin by exact H. reflexivity.
Qed.

Lemma INR_pos (n : nat) : (1 <= n)%nat -> 0 < INR n.
Proof. intros H. apply lt_0_INR. lia. Qed.

Lemma fftfreq_Fin (n : nat) (d : R) :
  (1 <= n)%nat -> d <> 0 ->
  fftfreq n (Fin d)
  = Ok (map (fun k => f_mul (of_int k) (Fin (1 / (INR n * d))))
            (fftfreq_integers n)).
Proof.
  intros Hn Hd. unfold fftfreq, of_nat. simpl f_mul.
  rewrite py_div_Fin; [reflexivity |].
  apply Rmult_integral_contrapositive_currified; [| exact Hd].
  apply Rgt_not_eq. apply INR_pos. exact Hn.
Qed.

(** Reads attributes through the assignments made so far. *)
Ltac self_fields :=
  cbn [chk_auto_N chk_norm_f chk_log_t chk_log_f led_N bottom_t bottom_f
       N t win nenbw scale F Win
       set_chk_norm_f set_led_N set_N set_t set_win set_nenbw set_scale
       set_F set_Win].

Section CalcWinRuns.

Variable windows : string -> option ScipyWindows.window_fn.
Variable safe_eval : string -> nat -> nat.

(** A run of [calc_win] on samples [w], a positive sample rate and at
    least one point: no exception, and every assigned attribute in terms
    of [w]. *)
Lemma calc_win_runs (fil : filter_dict) (self : self_t)
      (w : list float64) (fs : R) :
  let n := calc_win_N safe_eval fil self in
  calc_win_samples windows fil n = Ok w ->
  f_S fil = Fin fs -> 0 < fs -> (1 <= n)%nat ->
  exists s',
    calc_win windows safe_eval fil self = Ok s' /\
    N s' = n /\
    nenbw s' = f_div (f_mul (of_nat n) (sum (square w))) (f_square (sum w)) /\
    scale s' = f_div (of_nat n) (sum w) /\
    win s' = (if chk_norm_f self then mul_scalar w (scale s') else w) /\
    F s' = fftshift (map (fun k => f_mul (of_int k)
                                         (Fin (1 / (INR (n * 8) * (1 / fs)))))
                         (fftfreq_integers (n * 8))) /\
    Win s' = div_scalar
               (fftshift (map c_abs (dft (map c_of_real (pad (win s') (n * 8))))))
               (of_nat n).
Proof.
  intros n Hw HfS Hfs Hn.
  assert (Hfs0 : fs <> 0) by lra.
  assert (Hd : 1 / fs <> 0).
  { unfold Rdiv. rewrite Rmult_1_l. apply Rinv_neq_0_compat. exact Hfs0. }
  assert (Hn8 : (1 <= n * 8)%nat) by lia.
  assert (Hfft : forall a, fft a (n * 8) = Ok (dft (map c_of_real (pad a (n * 8))))).
  { intros a. unfold fft.
    destruct (Nat.ltb_spec (n * 8) 1) as [H | _]; [lia | reflexivity]. }
  revert Hw Hn Hn8 Hfft. unfold n, calc_win, calc_win_N. clear n.
  destruct self as [auto norm logt logf led bt bf N0 t0 win0 nenbw0 scale0 F0 Win0].
  destruct auto; self_fields; intros Hw Hn Hn8 Hfft;
    rewrite Hw; cbn [bind]; self_fields;
    rewrite HfS, (py_div_Fin 1 fs Hfs0); cbn [bind];
    (destruct norm; self_fields;
     rewrite (fftfreq_Fin _ _ Hn8 Hd); cbn [bind]; self_fields;
     rewrite Hfft; cbn [bind]; self_fields;
     eexists; (split; [reflexivity |]); self_fields;
     repeat split; reflexivity).
Qed.

End CalcWinRuns.

(** *** Sums of finite samples *)

Lemma f_add_Fin_inv (x y : float64) (r : R) :
  f_add x y = Fin r -> exists a b, x = Fin a /\ y = Fin b /\ r = a + b.
Proof.
  destruct x as [a | | |], y as [b | | |]; simpl; try discriminate.
  intros H. injection H as <-. exists a, b. repeat split.
Qed.

Lemma fold_add_Fin_inv (l : list float64) :
  forall (x : float64) (r : R),
    fold_left f_add l x = Fin r ->
    exists a rs, x = Fin a /\ l = map Fin rs /\ r = fold_left Rplus rs a.
Proof.
  induction l as [| y l IH]; intros x r H; simpl in H.
  - exists r, []. repeat split. exact H.
  - destruct (IH _ _ H) as [a' [rs [Ha' [Hl Hr]]]].
    destruct (f_add_Fin_inv _ _ _ Ha') as [a [b [Hx [Hy Hab]]]].
    exists a, (b :: rs). subst. repeat split.
Qed.

Lemma fold_add_squares (rs : list R) :
  forall a : R,
    fold_left f_add (square (map Fin rs)) (Fin a)
    = Fin (fold_left Rplus (map (fun r => r * r) rs) a).
Proof.
  induction rs as [| r rs IH]; intros a; simpl; [reflexivity |].
  apply IH.
Qed.

Lemma fold_squares_nonneg (rs : list R) :
  forall a : R, 0 <= a -> 0 <= fold_left Rplus (map (fun r => r * r) rs) a.
Proof.
  induction rs as [| r rs IH]; intros a Ha; simpl; [exact Ha |].
  apply IH. nra.
Qed.

Lemma fold_add_repeat (c : R) (n : nat) :
  forall a : R,
    fold_left f_add (repeat (Fin c) n) (Fin a) = Fin (a + INR n * c).
Proof.
  induction n as [| n IH]; intros a.
  - simpl. f_equal. lra.
  - cbn [repeat fold_left f_add]. rewrite IH. rewrite S_INR. f_equal. lra.
Qed.

Lemma sum_ones (n : nat) : sum (ones n) = Fin (INR n).
Proof.
  unfold sum, ones. rewrite fold_add_repeat. f_equal. lra.
Qed.

Lemma square_ones (n : nat) : square (ones n) = repeat (Fin (1 * 1)) n.
Proof.
  unfold square, ones. induction n as [| n IH]; simpl; [reflexivity |].
  f_equal. exact IH.
Qed.

(** *** fftshift and fftfreq on an even number of bins *)

Lemma arange_length (a b : Z) : List.length (arange a b) = Z.to_nat (b - a).
Proof. unfold arange. rewrite length_map, length_seq. reflexivity. Qed.

Lemma arange_nth (a b : Z) (i : nat) (d : Z) :
  (i < Z.to_nat (b - a))%nat -> nth i (arange a b) d = (a + Z.of_nat i)%Z.
Proof.
  intros H. unfold arange.
  rewrite (nth_indep _ d (a + Z.of_nat 0)%Z)
    by (rewrite length_map, length_seq; exact H).
  rewrite (map_nth (fun i => (a + Z.of_nat i)%Z)).
  rewrite seq_nth by exact H. reflexivity.
Qed.

Lemma fftshift_length {A} (x : list A) : List.length (fftshift x) = List.length x.
Proof.
  unfold fftshift. rewrite length_app, length_skipn, length_firstn.
  assert (H : (List.length x / 2 <= List.length x)%nat)
    by (apply Nat.Div0.div_le_upper_bound; lia).
  lia.
Qed.

Lemma fftshift_map {A B} (g : A -> B) (x : list A) :
  fftshift (map g x) = map g (fftshift x).
Proof.
  unfold fftshift. rewrite length_map, map_app, skipn_map, firstn_map.
  reflexivity.
Qed.

Lemma fftshift_halves {A} (x y : list A) :
  List.length x = List.length y -> fftshift (x ++ y) = y ++ x.
Proof.
  intros H. unfold fftshift. rewrite length_app, <- H.
  assert (E : (List.length x + List.length x
               - (List.length x + List.length x) / 2 = List.length x)%nat).
  { replace (List.length x + List.length x)%nat with (List.length x * 2)%nat by lia.
    rewrite Nat.div_mul by discriminate. lia. }
  rewrite E. rewrite skipn_app, firstn_app.
  rewrite skipn_all, firstn_all, Nat.sub_diag. simpl.
  rewrite app_nil_r. reflexivity.
Qed.

Lemma fftfreq_integers_even (n : nat) :
  fftfreq_integers (n * 8)
  = arange 0 (4 * Z.of_nat n) ++ arange (- (4 * Z.of_nat n)) 0.
Proof.
  unfold fftfreq_integers.
  replace (Z.of_nat (n * 8)) with (4 * Z.of_nat n * 2)%Z by lia.
  rewrite Z.div_mul by discriminate.
  replace ((4 * Z.of_nat n * 2 - 1) / 2)%Z with (4 * Z.of_nat n - 1)%Z.
  - replace (4 * Z.of_nat n - 1 + 1)%Z with (4 * Z.of_nat n)%Z by lia.
    reflexivity.
  - apply (Z.div_unique _ 2 _ 1); lia.
Qed.

Lemma fftshift_fftfreq_nth (n i : nat) :
  (i < n * 8)%nat ->
  List.length (fftshift (fftfreq_integers (n * 8))) = (n * 8)%nat /\
  nth i (fftshift (fftfreq_integers (n * 8))) 0%Z
  = (Z.of_nat i - 4 * Z.of_nat n)%Z.
Proof.
  intros Hi. rewrite fftfreq_integers_even.
  rewrite fftshift_halves by (rewrite !arange_length; lia).
  split.
  - rewrite length_app, !arange_length. lia.
  - destruct (Nat.lt_ge_cases i (4 * n)) as [Hlo | Hhi].
    + rewrite app_nth1 by (rewrite arange_length; lia).
      rewrite arange_nth by lia. lia.
    + rewrite app_nth2 by (rewrite arange_length; lia).
      rewrite arange_length. rewrite arange_nth by lia. lia.
Qed.

Lemma dft_length (x : list complex) : List.length (dft x) = List.length x.
Proof. unfold dft. rewrite length_map, length_seq. reflexivity. Qed.

Lemma pad_exact (a : list float64) (n : nat) :
  (List.length a <= n)%nat ->
  pad a n = a ++ repeat (Fin 0) (n - List.length a) /\
  List.length (pad a n) = n.
Proof.
  intros H. unfold pad. rewrite firstn_all2 by exact H. split; [reflexivity |].
  rewrite length_app, repeat_length. lia.
Qed.

(** *** The figures of merit *)

Import Examples.

Lemma f_div_by_zero (a : R) : f_div (Fin a) (Fin 0) = signed_inf (Rsgn a).
Proof.
  unfold f_div. destruct (Req_EM_T 0 0) as [_ | H]; [reflexivity | lra].
Qed.

Lemma calc_win_N_set_chk_norm_f safe_eval fil self (norm : bool) :
  calc_win_N safe_eval fil (set_chk_norm_f norm self)
  = calc_win_N safe_eval fil self.
Proof. reflexivity. Qed.

(** C4: on every run of [calc_win], with samples [w] from the window
    routine, [self.scale] (the coherent gain) is N / sum(w) and
    [self.nenbw] is N sum(w^2) / (sum w)^2, both on the samples as the
    routine returned them: "Norm" scales [self.win] only afterwards, so the
    two values are the same with the box ticked or not. *)
Theorem calc_win_metrics_raw
        (windows : string -> option ScipyWindows.window_fn)
        (safe_eval : string -> nat -> nat)
        (fil : filter_dict) (self : self_t) (w : list float64) (fs : R)
        (norm : bool) :
  let n := calc_win_N safe_eval fil self in
  calc_win_samples windows fil n = Ok w ->
  f_S fil = Fin fs -> 0 < fs -> (1 <= n)%nat ->
  exists s',
    calc_win windows safe_eval fil (set_chk_norm_f norm self) = Ok s' /\
    scale s' = f_div (of_nat n) (sum w) /\
    nenbw s' = f_div (f_mul (of_nat n) (sum (square w))) (f_square (sum w)) /\
    win s' = (if norm then mul_scalar w (f_div (of_nat n) (sum w)) else w).
Proof.
  intros n Hw HfS Hfs Hn.
  destruct (calc_win_runs windows safe_eval fil (set_chk_norm_f norm self) w fs)
    as [s' [Hrun [_ [Hnenbw [Hscale [Hwin _]]]]]];
    try rewrite calc_win_N_set_chk_norm_f; try assumption.
  rewrite calc_win_N_set_chk_norm_f in Hnenbw, Hscale. fold n in Hnenbw, Hscale.
  exists s'. repeat split; try assumption.
  rewrite Hwin, Hscale. destruct self; reflexivity.
Qed.

Lemma boxcar_samples (M : nat) :
  calc_win_samples ScipyWindows.attributes (fil_of "boxcar" M) M = Ok (ones M).
Proof. reflexivity. Qed.

Lemma calc_win_metrics_raw_witness :
  exists s',
    calc_win ScipyWindows.attributes safe_eval_default (fil_of "boxcar" 4)
             (set_chk_norm_f true (self_init false)) = Ok s' /\
    scale s' = f_div (of_nat 4) (sum (ones 4)) /\
    nenbw s' = f_div (f_mul (of_nat 4) (sum (square (ones 4))))
                     (f_square (sum (ones 4))) /\
    win s' = mul_scalar (ones 4) (f_div (of_nat 4) (sum (ones 4))).
Proof.
  apply (calc_win_metrics_raw ScipyWindows.attributes safe_eval_default
                              (fil_of "boxcar" 4) (self_init false)
                              (ones 4) 1 true).
  - apply boxcar_samples.
  - reflexivity.
  - lra.
  - vm_compute. lia.
Defined.

(** C6, as the code has it: a window whose samples sum to zero raises
    nothing.  The two quotients are NumPy divisions: the coherent gain
    comes out as +inf and the noise bandwidth as +inf or NaN, and
    [calc_win] runs to its end. *)
Theorem calc_win_zero_sum
        (windows : string -> option ScipyWindows.window_fn)
        (safe_eval : string -> nat -> nat)
        (fil : filter_dict) (self : self_t) (w : list float64) (fs : R) :
  let n := calc_win_N safe_eval fil self in
  calc_win_samples windows fil n = Ok w ->
  f_S fil = Fin fs -> 0 < fs -> (1 <= n)%nat ->
  sum w = Fin 0 ->
  exists s',
    calc_win windows safe_eval fil self = Ok s' /\
    scale s' = PInf /\
    (nenbw s' = PInf \/ nenbw s' = NaN).
Proof.
  intros n Hw HfS Hfs Hn Hsum.
  destruct (calc_win_runs windows safe_eval fil self w fs Hw HfS Hfs Hn)
    as [s' [Hrun [_ [Hnenbw [Hscale _]]]]].
  fold n in Hnenbw, Hscale.
  exists s'. split; [exact Hrun |].
  assert (Hpos : 0 < INR n) by (apply INR_pos; exact Hn).
  split.
  - rewrite Hscale, Hsum. unfold of_nat. rewrite f_div_by_zero.
    rewrite Rsgn_pos by exact Hpos. reflexivity.
  - rewrite Hnenbw.
    pose proof Hsum as Hfold. unfold sum in Hfold.
    destruct (fold_add_Fin_inv _ _ _ Hfold) as [a [rs [_ [Hl _]]]].
    subst w. rewrite Hsum.
    unfold sum. rewrite fold_add_squares.
    pose proof (fold_squares_nonneg rs 0 (Rle_refl 0)) as Hq.
    set (q := fold_left Rplus (map (fun r => r * r) rs) 0) in *.
    unfold of_nat, f_square. cbn [f_mul].
    replace (0 * 0) with 0 by lra. rewrite f_div_by_zero.
    destruct (Req_EM_T q 0) as [E | E].
    + right. rewrite E, Rmult_0_r, Rsgn_zero. reflexivity.
    + left. rewrite Rsgn_pos by nra. reflexivity.
Qed.

Lemma bartlett_2 : ScipyWindows.bartlett_samples 2 = [Fin 0; Fin 0].
Proof.
  unfold ScipyWindows.bartlett_samples. cbn [seq map INR].
  destruct (Rle_dec 0 ((1 + 1 - 1) / 2)) as [_ | H]; [| exfalso; lra].
  destruct (Rle_dec 1 ((1 + 1 - 1) / 2)) as [H | _]; [exfalso; lra |].
  f_equal; [| f_equal]; f_equal; field.
Qed.

Lemma bartlett_2_samples :
  calc_win_samples ScipyWindows.attributes (fil_of "bartlett" 2) 2
  = Ok [Fin 0; Fin 0].
Proof.
  unfold calc_win_samples, getattr_win, fil_of.
  cbn [win_params win_fnct truth negb].
  change (ScipyWindows.attributes "bartlett") with (Some ScipyWindows.bartlett).
  cbn [bind]. unfold ScipyWindows.bartlett, ScipyWindows.bartlett_sym.
  cbn [Nat.leb]. rewrite bartlett_2. reflexivity.
Qed.

Lemma sum_two_zeros : sum [Fin 0; Fin 0] = Fin 0.
Proof. unfold sum. simpl. f_equal. lra. Qed.

Lemma calc_win_zero_sum_witness :
  exists s',
    calc_win ScipyWindows.attributes safe_eval_default (fil_of "bartlett" 2)
             (self_init false) = Ok s' /\
    scale s' = PInf /\
    (nenbw s' = PInf \/ nenbw s' = NaN).
Proof.
  apply (calc_win_zero_sum ScipyWindows.attributes safe_eval_default
                           (fil_of "bartlett" 2) (self_init false)
                           [Fin 0; Fin 0] 1).
  - apply bartlett_2_samples.
  - reflexivity.
  - lra.
  - vm_compute. lia.
  - apply sum_two_zeros.
Defined.

(** C6 as stated fails: the Bartlett window of two points is [0, 0]; on it
    [calc_win] raises no exception and returns the coherent gain +inf and
    the noise bandwidth NaN, and with "Norm" ticked the samples it keeps
    are NaN as well. *)
Lemma calc_win_zero_sum_silent :
  calc_win_samples ScipyWindows.attributes (fil_of "bartlett" 2) 2
  = Ok [Fin 0; Fin 0] /\
  exists s',
    calc_win ScipyWindows.attributes safe_eval_default (fil_of "bartlett" 2)
             (self_init true) = Ok s' /\
    scale s' = PInf /\ nenbw s' = NaN /\ win s' = [NaN; NaN].
Proof.
  split; [apply bartlett_2_samples |].
  destruct (calc_win_runs ScipyWindows.attributes safe_eval_default
                          (fil_of "bartlett" 2) (self_init true)
                          [Fin 0; Fin 0] 1)
    as [s' [Hrun [_ [Hnenbw [Hscale [Hwin _]]]]]].
  - apply bartlett_2_samples.
  - reflexivity.
  - lra.
  - vm_compute. lia.
  - assert (Es : scale s' = PInf).
    { rewrite Hscale, sum_two_zeros. unfold of_nat. rewrite f_div_by_zero.
      rewrite Rsgn_pos by (simpl; lra). reflexivity. }
    exists s'. split; [exact Hrun |]. split; [exact Es |]. split.
    + rewrite Hnenbw, sum_two_zeros. unfold sum, of_nat, f_square. simpl.
      destruct (Req_EM_T (0 * 0) 0) as [_ | H]; [| exfalso; lra].
      replace ((1 + 1) * (0 + 0 * 0 + 0 * 0)) with 0 by lra.
      rewrite Rsgn_zero. reflexivity.
    + rewrite Hwin, Es. simpl. rewrite Rsgn_zero. reflexivity.
Qed.

(** C7: for the rectangular window of any length N >= 1, called without
    shape parameters, the coherent gain and the noise bandwidth are both
    exactly 1, with "Norm" ticked or not. *)
Theorem boxcar_unit_metrics
        (windows : string -> option ScipyWindows.window_fn)
        (safe_eval : string -> nat -> nat)
        (fil : filter_dict) (self : self_t) (fs : R) :
  let n := calc_win_N safe_eval fil self in
  windows (win_fnct fil) = Some ScipyWindows.boxcar ->
  truth (win_params fil) = false ->
  f_S fil = Fin fs -> 0 < fs -> (1 <= n)%nat ->
  exists s',
    calc_win windows safe_eval fil self = Ok s' /\
    scale s' = Fin 1 /\ nenbw s' = Fin 1.
Proof.
  intros n Hbox Hp HfS Hfs Hn.
  assert (Hw : calc_win_samples windows fil n = Ok (ones n)).
  { unfold calc_win_samples, getattr_win. rewrite Hp, Hbox. reflexivity. }
  destruct (calc_win_runs windows safe_eval fil self (ones n) fs Hw HfS Hfs Hn)
    as [s' [Hrun [_ [Hnenbw [Hscale _]]]]].
  fold n in Hnenbw, Hscale.
  assert (Hpos : 0 < INR n) by (apply INR_pos; exact Hn).
  exists s'. split; [exact Hrun |]. split.
  - rewrite Hscale, sum_ones. unfold of_nat. rewrite f_div_Fin by lra.
    f_equal. field. lra.
  - rewrite Hnenbw, sum_ones, square_ones. unfold sum.
    rewrite fold_add_repeat. unfold of_nat, f_square. cbn [f_mul].
    rewrite f_div_Fin by nra. f_equal. field. lra.
Qed.

Lemma boxcar_unit_metrics_witness :
  exists s',
    calc_win ScipyWindows.attributes safe_eval_default (fil_of "boxcar" 64)
             (self_init false) = Ok s' /\
    scale s' = Fin 1 /\ nenbw s' = Fin 1.
Proof.
  apply (boxcar_unit_metrics ScipyWindows.attributes safe_eval_default
                             (fil_of "boxcar" 64) (self_init false) 1).
  - reflexivity.
  - reflexivity.
  - reflexivity.
  - lra.
  - vm_compute. lia.
Defined.

(** *** Lengths, spectrum and frequency axis *)

Lemma fftshift_fftfreq_bin (n i : nat) (val : R) :
  (i < n * 8)%nat ->
  nth i (fftshift (map (fun k => f_mul (of_int k) (Fin val))
                       (fftfreq_integers (n * 8)))) NaN
  = Fin ((INR i - 4 * INR n) * val).
Proof.
  intros Hi. destruct (fftshift_fftfreq_nth n i Hi) as [Hlen Hnth].
  rewrite fftshift_map.
  rewrite (nth_indep _ NaN (f_mul (of_int 0) (Fin val)))
    by (rewrite length_map, Hlen; exact Hi).
  rewrite (map_nth (fun k => f_mul (of_int k) (Fin val))).
  rewrite Hnth. unfold of_int. cbn [f_mul].
  rewrite minus_IZR, mult_IZR, <- !INR_IZR_INZ. reflexivity.
Qed.

(** C8: on every run of [calc_win] with N >= 1 samples from the window
    routine, [self.win] has N elements and [self.Win] and [self.F] have 8 N
    each; [self.Win] is the magnitude of the DFT of the samples (scaled by
    the coherent gain when "Norm" is ticked) followed by 7 N zeros, shifted
    so that frequency zero is in the middle, and divided by N; and the i-th
    entry of [self.F] is the integer i - 4 N, which runs from -4 N to
    4 N - 1 with 0 in the middle, times the step that [fftfreq] computes
    from [d = 1. / f_S] as [1.0 / (8 N * d)], which is f_S / (8 N) up to the
    rounding of these operations. *)
Theorem calc_win_lengths
        (windows : string -> option ScipyWindows.window_fn)
        (safe_eval : string -> nat -> nat)
        (fil : filter_dict) (self : self_t) (w : list float64) (fs : R) :
  let n := calc_win_N safe_eval fil self in
  calc_win_samples windows fil n = Ok w ->
  List.length w = n ->
  f_S fil = Fin fs -> 0 < fs -> (1 <= n)%nat ->
  exists s',
    calc_win windows safe_eval fil self = Ok s' /\
    win s' = (if chk_norm_f self then mul_scalar w (scale s') else w) /\
    List.length (win s') = n /\
    List.length (Win s') = (8 * n)%nat /\
    List.length (F s') = (8 * n)%nat /\
    Win s' = div_scalar
               (fftshift
                  (map c_abs
                       (dft (map c_of_real (win s' ++ repeat (Fin 0) (7 * n))))))
               (of_nat n) /\
    (forall i, (i < 8 * n)%nat ->
               nth i (F s') NaN
               = f_mul (of_int (Z.of_nat i - 4 * Z.of_nat n))
                       (f_div (Fin 1)
                              (f_mul (of_nat (n * 8))
                                     (f_div (Fin 1) (f_S fil))))).
Proof.
  intros n Hw Hlen HfS Hfs Hn.
  destruct (calc_win_runs windows safe_eval fil self w fs Hw HfS Hfs Hn)
    as [s' [Hrun [_ [_ [_ [Hwin [HF HWin]]]]]]].
  fold n in HF, HWin.
  assert (Lwin : List.length (win s') = n).
  { rewrite Hwin. destruct (chk_norm_f self); [| exact Hlen].
    unfold mul_scalar. rewrite length_map. exact Hlen. }
  destruct (pad_exact (win s') (n * 8)) as [Epad Lpad]; [lia |].
  assert (Hpos : 0 < INR n) by (apply INR_pos; exact Hn).
  exists s'. split; [exact Hrun |]. split; [exact Hwin |]. split; [exact Lwin |].
  split; [| split; [| split]].
  - rewrite HWin. unfold div_scalar.
    rewrite length_map, fftshift_length, length_map, dft_length, length_map, Lpad.
    lia.
  - rewrite HF, fftshift_length, length_map.
    rewrite fftfreq_integers_even, length_app, !arange_length. lia.
  - rewrite HWin, Epad, Lwin.
    replace (n * 8 - n)%nat with (7 * n)%nat by lia. reflexivity.
  - intros i Hi.
    assert (Hi' : (i < n * 8)%nat) by lia.
    destruct (fftshift_fftfreq_nth n i Hi') as [Hlen8 Hnth].
    rewrite HfS, (f_div_Fin 1 fs) by lra.
    unfold of_nat. cbn [f_mul].
    rewrite (f_div_Fin 1 (INR (n * 8) * (1 / fs)))
      by (apply Rmult_integral_contrapositive_currified;
          [apply Rgt_not_eq, INR_pos; lia
          | unfold Rdiv; rewrite Rmult_1_l; apply Rinv_neq_0_compat; lra]).
    rewrite HF, fftshift_map.
    rewrite (nth_indep _ NaN
               (f_mul (of_int 0) (Fin (1 / (INR (n * 8) * (1 / fs))))))
      by (rewrite length_map, Hlen8; exact Hi').
    rewrite (map_nth (fun k => f_mul (of_int k)
                                     (Fin (1 / (INR (n * 8) * (1 / fs)))))).
    rewrite Hnth. reflexivity.
Qed.

Lemma calc_win_lengths_witness :
  exists s',
    calc_win ScipyWindows.attributes safe_eval_default (fil_of "boxcar" 64)
             (self_init true) = Ok s' /\
    win s' = mul_scalar (ones 64) (scale s') /\
    List.length (win s') = 64%nat /\
    List.length (Win s') = 512%nat /\
    List.length (F s') = 512%nat /\
    Win s' = div_scalar
               (fftshift
                  (map c_abs
                       (dft (map c_of_real (win s' ++ repeat (Fin 0) 448)))))
               (of_nat 64) /\
    (forall i, (i < 512)%nat ->
               nth i (F s') NaN
               = f_mul (of_int (Z.of_nat i - 4 * Z.of_nat 64))
                       (f_div (Fin 1)
                              (f_mul (of_nat (64 * 8))
                                     (f_div (Fin 1) (Fin 1))))).
Proof.
  apply (calc_win_lengths ScipyWindows.attributes safe_eval_default
                          (fil_of "boxcar" 64) (self_init true) (ones 64) 1).
  - apply boxcar_samples.
  - apply repeat_length.
  - reflexivity.
  - lra.
  - vm_compute. lia.
Defined.

(** *** The same values in binary64 *)

(** In IEEE arithmetic too the rectangular window has both figures of merit
    equal to 1.0 exactly, here for the lengths 1, 64 and 1000. *)
Lemma binary64_boxcar :
  Binary64.scale 1 (Binary64.ones 1) = Binary64.one /\
  Binary64.nenbw 1 (Binary64.ones 1) = Binary64.one /\
  Binary64.scale 64 (Binary64.ones 64) = Binary64.one /\
  Binary64.nenbw 64 (Binary64.ones 64) = Binary64.one /\
  Binary64.scale 1000 (Binary64.ones 1000) = Binary64.one /\
  Binary64.nenbw 1000 (Binary64.ones 1000) = Binary64.one.
Proof. repeat split; vm_compute; reflexivity. Qed.

(** And the all-zero window of two samples gives +inf and NaN, with no
    exception in between. *)
Lemma binary64_zero_sum :
  Binary64.scale 2 (Binary64.zeros 2) = PrimFloat.infinity /\
  PrimFloat.is_nan (Binary64.nenbw 2 (Binary64.zeros 2)) = true.
Proof. split; vm_compute; reflexivity. Qed.

(* ================================================================== *)
(** ** Further properties of the code *)

(** *** calc_n_points: errors and bounds *)

(** X1: the exceptions of [calc_n_points] are the TypeError of the
    degenerate filter and the IndexError of [aa[0]], and the IndexError is
    raised exactly for an empty denominator with a numerator whose length
    is not 1; the requested length has no part in it. *)
Theorem calc_n_points_errors (bb aa : list float64) (N_user : Z) :
  (calc_n_points bb aa N_user = Raise IndexError
   <-> (aa = [] /\ List.length bb <> 1%nat)) /\
  (forall e, calc_n_points bb aa N_user = Raise e ->
             e = TypeError \/ e = IndexError).
Proof.
  unfold calc_n_points, calc_n_points_IIR. rewrite !len_eqb_1.
  destruct (Nat.eqb_spec (List.length aa) 1) as [Ha | Ha];
    destruct (Nat.eqb_spec (List.length bb) 1) as [Hb | Hb]; simpl.
  - split; [split; [discriminate | intros [_ H]; contradiction] |].
    intros e H. injection H as <-. left. reflexivity.
  - split; [split; [discriminate | intros [-> _]; simpl in Ha; discriminate] |].
    intros e H. discriminate.
  - split; [split; [discriminate | intros [_ H]; contradiction] |].
    intros e H. discriminate.
  - destruct aa as [| a0 rest].
    + simpl. split; [split; [intros _; split; [reflexivity | exact Hb]
                            | reflexivity] |].
      intros e H. injection H as <-. right. reflexivity.
    + unfold slice_from1. simpl.
      destruct (Np.any rest); simpl;
        [| destruct (f_nonzero a0); simpl];
        (split; [split; [discriminate | intros [H _]; discriminate] |
                 intros e H; discriminate]).
Qed.

(** X2: for a filter that is classified, an automatic length (0 points
    requested) is either 100 or the number of numerator coefficients, and
    lies between 0 and 100. *)
Theorem calc_n_points_auto_bounds (bb aa : list float64) :
  aa <> [] \/ List.length bb = 1%nat ->
  ~ (List.length aa = 1%nat /\ List.length bb = 1%nat) ->
  exists N : Z,
    calc_n_points bb aa 0 = Ok N /\
    (0 <= N <= 100)%Z /\ (N = 100%Z \/ N = len bb).
Proof.
  intros Hne Hdeg.
  destruct (calc_n_points_IIR_defined bb aa Hne Hdeg) as [IIR Hc].
  unfold calc_n_points. rewrite Hc. cbn [bind Z.eqb].
  eexists. split; [reflexivity |].
  unfold len. destruct IIR; lia.
Qed.

Lemma calc_n_points_auto_bounds_witness :
  exists N : Z,
    calc_n_points [Fin 1; Fin 1; Fin 1] [Fin 1] 0 = Ok N /\
    (0 <= N <= 100)%Z /\ (N = 100%Z \/ N = len [Fin 1; Fin 1; Fin 1]).
Proof.
  apply (calc_n_points_auto_bounds [Fin 1; Fin 1; Fin 1] [Fin 1]).
  - left. discriminate.
  - simpl. intros [_ H]. discriminate H.
Defined.

(** X3: a numerator of length 1 with a denominator whose length is not 1
    is IIR whatever the denominator holds: a pure gain over [1, 0, 0] is
    IIR, and so is an empty denominator; 0 requested points then give
    100. *)
Theorem calc_n_points_single_numerator (b0 : float64) (aa : list float64) :
  List.length aa <> 1%nat ->
  calc_n_points_IIR [b0] aa = Ok true /\
  calc_n_points [b0] aa 0 = Ok 100%Z.
Proof.
  intros Ha.
  assert (E : calc_n_points_IIR [b0] aa = Ok true).
  { unfold calc_n_points_IIR. rewrite !len_eqb_1.
    destruct (Nat.eqb_spec (List.length aa) 1) as [H | _]; [contradiction |].
    reflexivity. }
  split; [exact E |]. unfold calc_n_points. rewrite E. reflexivity.
Qed.

Lemma calc_n_points_single_numerator_witness :
  calc_n_points_IIR [Fin 1] [Fin 1; Fin 0; Fin 0] = Ok true /\
  calc_n_points [Fin 1] [Fin 1; Fin 0; Fin 0] 0 = Ok 100%Z.
Proof.
  apply (calc_n_points_single_numerator (Fin 1) [Fin 1; Fin 0; Fin 0]).
  simpl. discriminate.
Defined.

(** *** draw_impz: sizes and special values *)

(** X4: [draw_impz] keeps the number of samples: the series for the real
    axis has as many elements as the response, and so has the series for
    the imaginary axis when there is one, with [log] set or not. *)
Theorem draw_impz_sizes (h0 : ndarray) (log : bool) (ledLogBottom : float64) :
  ndarray_size (h (draw_impz h0 log ledLogBottom)) = ndarray_size h0 /\
  (forall hi, h_i (draw_impz h0 log ledLogBottom) = Some hi ->
              List.length hi = ndarray_size h0).
Proof.
  unfold draw_impz, maximum, scalar_mul, log10.
  destruct h0 as [l | l]; destruct log;
    destruct (any_bool (iscomplex _)); simpl;
    rewrite ?length_map; split; try reflexivity;
    intros hi H; try discriminate; injection H as <-;
    rewrite ?length_map; reflexivity.
Qed.

Lemma real_array_not_complex (l : list float64) :
  any_bool (iscomplex (RealArr l)) = false.
Proof.
  unfold any_bool. simpl. induction l as [| x l IH]; simpl; [reflexivity | exact IH].
Qed.

(** One element of a real response on the dB scale of [draw_impz]. *)
Lemma dB_special_values (x : float64) (f : R) :
  let y := f_maximum (f_mul (Fin 20) (f_log10 (f_abs x))) (Fin f) in
  (y = NaN <-> x = NaN) /\
  y <> NInf /\
  (y = PInf <-> (x = PInf \/ x = NInf)) /\
  (forall r, y = Fin r -> f <= r).
Proof.
  destruct x as [v | | |].
  - cbn zeta. simpl f_abs. rewrite dB_of_finite by apply Rabs_pos.
    repeat split; try discriminate.
    + intros [H | H]; discriminate.
    + intros r H. injection H as <-.
      destruct (Req_EM_T (Rabs v) 0); [lra | apply Rmax_r].
  - cbn. rewrite (Rsgn_pos 20) by lra. cbn.
    repeat split; try discriminate; auto.
  - cbn. rewrite (Rsgn_pos 20) by lra. cbn.
    repeat split; try discriminate; auto.
  - cbn. repeat split; try discriminate; auto.
    intros [H | H]; discriminate.
Qed.

(** X5: on the dB scale with a finite floor, [draw_impz] never plots
    -inf for a real response: a NaN sample stays NaN and nothing else
    becomes NaN, an infinite sample becomes +inf, and every other sample
    comes out finite and at least the floor. *)
Theorem draw_impz_log_special_values (l : list float64) (f : R) (i : nat) :
  (i < List.length l)%nat ->
  let x := nth i l NaN in
  let y := nth i (real (h (draw_impz (RealArr l) true (Fin f)))) NaN in
  (y = NaN <-> x = NaN) /\
  y <> NInf /\
  (y = PInf <-> (x = PInf \/ x = NInf)) /\
  (forall r, y = Fin r -> f <= r).
Proof.
  intros Hi x y.
  assert (E : y = f_maximum (f_mul (Fin 20) (f_log10 (f_abs x))) (Fin f)).
  { unfold y, x, draw_impz. rewrite real_array_not_complex.
    unfold maximum, scalar_mul, log10. cbn [h real Np.abs].
    rewrite !map_map.
    rewrite (nth_indep _ NaN
               (f_maximum (f_mul (Fin 20) (f_log10 (f_abs NaN))) (Fin f)))
      by (rewrite length_map; exact Hi).
    rewrite (map_nth (fun v => f_maximum (f_mul (Fin 20) (f_log10 (f_abs v)))
                                         (Fin f))).
    reflexivity. }
  rewrite E. apply dB_special_values.
Qed.

Lemma draw_impz_log_special_values_witness :
  let x := nth 1 [Fin 1; PInf; NaN] NaN in
  let y := nth 1 (real (h (draw_impz (RealArr [Fin 1; PInf; NaN]) true
                                     (Fin (-80))))) NaN in
  (y = NaN <-> x = NaN) /\
  y <> NInf /\
  (y = PInf <-> (x = PInf \/ x = NInf)) /\
  (forall r, y = Fin r -> -80 <= r).
Proof.
  apply (draw_impz_log_special_values [Fin 1; PInf; NaN] (-80) 1).
  simpl. lia.
Defined.

(** *** calc_win: when it completes, what it raises, what it keeps *)

Lemma py_div_by_zero (x : float64) : py_div x (Fin 0) = Raise ZeroDivisionError.
Proof. unfold py_div. rewrite f_nonzero_zero. reflexivity. Qed.

Lemma fftfreq_zero_product (n : nat) (d : R) :
  INR n * d = 0 -> fftfreq n (Fin d) = Raise ZeroDivisionError.
Proof.
  intros H. unfold fftfreq, of_nat. cbn [f_mul]. rewrite H.
  rewrite py_div_by_zero. reflexivity.
Qed.

Lemma fft_defined (a : list float64) (n : nat) :
  (1 <= n)%nat -> fft a n = Ok (dft (map c_of_real (pad a n))).
Proof.
  intros H. unfold fft.
  destruct (Nat.ltb_spec n 1) as [H1 | _]; [lia | reflexivity].
Qed.

Section CalcWinStages.

Variable windows : string -> option ScipyWindows.window_fn.
Variable safe_eval : string -> nat -> nat.

(** [calc_win] stage by stage: the window call, the two quotients, the
    scaling, the two divisions of the frequency axis, the transform, and
    the state that is left. *)
Lemma calc_win_stages (fil : filter_dict) (self : self_t) :
  let n := calc_win_N safe_eval fil self in
  calc_win windows safe_eval fil self
  = (w <- calc_win_samples windows fil n ;;
     let nb := f_div (f_mul (of_nat n) (sum (square w))) (f_square (sum w)) in
     let sc := f_div (of_nat n) (sum w) in
     let win' := if chk_norm_f self then mul_scalar w sc else w in
     d <- py_div (Fin 1) (f_S fil) ;;
     freqs <- fftfreq (n * 8) d ;;
     X <- fft win' (n * 8) ;;
     Ok (mk_self (chk_auto_N self) (chk_norm_f self) (chk_log_t self)
                 (chk_log_f self)
                 (if chk_auto_N self then str n else led_N self)
                 (bottom_t self) (bottom_f self) n (seq 0 n) win' nb sc
                 (fftshift freqs)
                 (div_scalar (fftshift (map c_abs X)) (of_nat n)))).
Proof.
  destruct self as [auto norm logt logf led bt bf N0 t0 win0 nenbw0 scale0 F0 Win0].
  unfold calc_win, calc_win_N. self_fields.
  destruct auto; self_fields;
    (destruct (calc_win_samples windows fil _) as [w | e]; cbn [bind];
     [| reflexivity]; self_fields;
     destruct norm; self_fields;
     (destruct (py_div (Fin 1) (f_S fil)) as [d | e]; cbn [bind];
      [| reflexivity];
      destruct (fftfreq _ d) as [freqs | e]; cbn [bind]; [| reflexivity];
      self_fields;
      destruct (fft _ _) as [X | e]; cbn [bind]; reflexivity)).
Qed.

(** X6: once the window routine has returned its samples, [calc_win]
    completes when N >= 1 and the sample rate is neither zero nor infinite
    (a negative rate is accepted, and so is a NaN one).  With N = 0 it never
    completes: it ends in ZeroDivisionError or in ValueError.  Both parts
    hold whether the sample rate is a Python float or a NumPy scalar: with
    N = 0 the division inside [fftfreq] raises for the former, and [fft]
    refuses zero points for the latter. *)
Theorem calc_win_completes (fil : filter_dict) (self : self_t)
        (w : list float64) :
  let n := calc_win_N safe_eval fil self in
  calc_win_samples windows fil n = Ok w ->
  ((1 <= n)%nat ->
   f_S fil <> Fin 0 -> f_S fil <> PInf -> f_S fil <> NInf ->
   exists s', calc_win windows safe_eval fil self = Ok s') /\
  (n = 0%nat ->
   calc_win windows safe_eval fil self = Raise ZeroDivisionError
   \/ calc_win windows safe_eval fil self = Raise ValueError).
Proof.
  intros n Hw. rewrite calc_win_stages. fold n. rewrite Hw. cbn [bind].
  destruct (f_S fil) as [fs | | |].
  - destruct (Req_EM_T fs 0) as [-> | Hfs].
    + rewrite py_div_by_zero. cbn [bind].
      split; [intros _ H; contradiction H; reflexivity
             | intros _; left; reflexivity].
    + rewrite py_div_Fin by exact Hfs. cbn [bind].
      assert (Hd : 1 / fs <> 0).
      { unfold Rdiv. rewrite Rmult_1_l. apply Rinv_neq_0_compat. exact Hfs. }
      destruct (Nat.eq_dec n 0) as [En | En].
      * rewrite En. rewrite fftfreq_zero_product by (simpl; lra). cbn [bind].
        split; [intros H; lia | intros _; left; reflexivity].
      * rewrite fftfreq_Fin by (try lia; exact Hd). cbn [bind].
        rewrite fft_defined by lia. cbn [bind].
        split; [intros _ _ _ _; eexists; reflexivity
               | intros H; contradiction].
  - unfold py_div. cbn [f_nonzero f_div bind].
    rewrite fftfreq_zero_product by lra. cbn [bind].
    split; [intros _ _ H; contradiction H; reflexivity
           | intros _; left; reflexivity].
  - unfold py_div. cbn [f_nonzero f_div bind].
    rewrite fftfreq_zero_product by lra. cbn [bind].
    split; [intros _ _ _ H; contradiction H; reflexivity
           | intros _; left; reflexivity].
  - unfold py_div, fftfreq, of_nat. cbn [f_nonzero f_div f_mul bind].
    destruct (Nat.eq_dec n 0) as [En | En].
    + rewrite En. cbn [Nat.mul fft Nat.ltb Nat.leb bind].
      split; [intros H; lia | intros _; right; reflexivity].
    + rewrite fft_defined by lia. cbn [bind].
      split; [intros _ _ _ _; eexists; reflexivity
             | intros H; contradiction].
Qed.

(** X7: an exception of the window stage is the exception of [calc_win],
    and a window name that the module does not have raises
    AttributeError, before the sample rate is looked at. *)
Theorem calc_win_window_errors (fil : filter_dict) (self : self_t) :
  (forall e,
      calc_win_samples windows fil (calc_win_N safe_eval fil self) = Raise e ->
      calc_win windows safe_eval fil self = Raise e) /\
  (windows (win_fnct fil) = None ->
   calc_win windows safe_eval fil self = Raise AttributeError).
Proof.
  split.
  - intros e H. rewrite calc_win_stages. cbn zeta. rewrite H. reflexivity.
  - intros H. rewrite calc_win_stages. cbn zeta.
    unfold calc_win_samples, getattr_win. rewrite H.
    destruct (negb (truth (win_params fil))); [reflexivity |].
    destruct (isscalar (win_params fil)); reflexivity.
Qed.

(** X8: a second [calc_win] after a completed one changes nothing: the
    samples are taken afresh from the window routine, so the scaling of
    "Norm" does not accumulate, and every attribute is assigned the same
    value again.  With "N Auto" off this needs [safe_eval] to return the N
    it returned before when that N is its default. *)
Theorem calc_win_idempotent (fil : filter_dict) (self s' : self_t) :
  calc_win windows safe_eval fil self = Ok s' ->
  (chk_auto_N self = true
   \/ safe_eval (led_N self) (calc_win_N safe_eval fil self)
      = calc_win_N safe_eval fil self) ->
  calc_win windows safe_eval fil s' = Ok s'.
Proof.
  intros Hrun Hn.
  pose proof (calc_win_stages fil self) as E. cbn zeta in E.
  rewrite Hrun in E.
  set (n := calc_win_N safe_eval fil self) in *.
  destruct (calc_win_samples windows fil n) as [w | e] eqn:Hw;
    cbn [bind] in E; [| discriminate].
  destruct (py_div (Fin 1) (f_S fil)) as [d | e] eqn:Hd;
    cbn [bind] in E; [| discriminate].
  destruct (fftfreq (n * 8) d) as [freqs | e] eqn:Hf;
    cbn [bind] in E; [| discriminate].
  destruct (fft _ (n * 8)) as [X | e] eqn:HX in E;
    cbn [bind] in E; [| discriminate].
  injection E as E.
  assert (En : calc_win_N safe_eval fil s' = n).
  { rewrite E. unfold calc_win_N. self_fields.
    destruct (chk_auto_N self) eqn:Ea.
    - unfold n, calc_win_N. rewrite Ea. reflexivity.
    - destruct Hn as [Hn | Hn]; [discriminate | exact Hn]. }
  rewrite calc_win_stages. cbn zeta. rewrite En, Hw. cbn [bind].
  rewrite Hd. cbn [bind]. rewrite Hf. cbn [bind].
  assert (Ec : chk_norm_f s' = chk_norm_f self) by (rewrite E; reflexivity).
  rewrite Ec, HX. cbn [bind].
  rewrite E. self_fields.
  destruct (chk_auto_N self); reflexivity.
Qed.

End CalcWinStages.

Lemma calc_win_completes_witness :
  exists s', calc_win ScipyWindows.attributes safe_eval_default
                      (fil_of "boxcar" 4) (self_init true) = Ok s'.
Proof.
  apply (calc_win_completes ScipyWindows.attributes safe_eval_default
                            (fil_of "boxcar" 4) (self_init true) (ones 4)).
  - apply boxcar_samples.
  - vm_compute. lia.
  - intros H. injection H as H. lra.
  - discriminate.
  - discriminate.
Defined.

Lemma calc_win_idempotent_witness :
  exists s',
    calc_win ScipyWindows.attributes safe_eval_default (fil_of "boxcar" 4)
             (self_init true) = Ok s' /\
    calc_win ScipyWindows.attributes safe_eval_default (fil_of "boxcar" 4) s'
    = Ok s'.
Proof.
  destruct (calc_win_runs ScipyWindows.attributes safe_eval_default
                          (fil_of "boxcar" 4) (self_init true) (ones 4) 1)
    as [s' [Hrun _]].
  - apply boxcar_samples.
  - reflexivity.
  - lra.
  - vm_compute. lia.
  - exists s'. split; [exact Hrun |].
    apply (calc_win_idempotent ScipyWindows.attributes safe_eval_default
                               (fil_of "boxcar" 4) (self_init true) s' Hrun).
    left. reflexivity.
Defined.

(** *** calc_win on finite samples *)






(** *** The centre of the spectrum *)










(** The state a completed [calc_win] returns, attribute by attribute. *)
Lemma calc_win_final
      (windows : string -> option ScipyWindows.window_fn)
      (safe_eval : string -> nat -> nat)
      (fil : filter_dict) (self : self_t) (w : list float64) (fs : R) :
  let n := calc_win_N safe_eval fil self in
  let sc := f_div (of_nat n) (sum w) in
  let win' := if chk_norm_f self then mul_scalar w sc else w in
  calc_win_samples windows fil n = Ok w ->
  f_S fil = Fin fs -> fs <> 0 -> (1 <= n)%nat ->
  calc_win windows safe_eval fil self
  = Ok (mk_self (chk_auto_N self) (chk_norm_f self) (chk_log_t self)
                (chk_log_f self)
                (if chk_auto_N self then str n else led_N self)
                (bottom_t self) (bottom_f self) n (seq 0 n) win'
                (f_div (f_mul (of_nat n) (sum (square w))) (f_square (sum w)))
                sc
                (fftshift (map (fun k => f_mul (of_int k)
                                               (Fin (1 / (INR (n * 8) * (1 / fs)))))
                               (fftfreq_integers (n * 8))))
                (div_scalar
                   (fftshift (map c_abs (dft (map c_of_real (pad win' (n * 8))))))
                   (of_nat n))).
Proof.
  intros n sc win' Hw HfS Hfs Hn.
  rewrite calc_win_stages. fold n. rewrite Hw. cbn [bind]. fold sc. fold win'.
  rewrite HfS, py_div_Fin by exact Hfs. cbn [bind].
  rewrite fftfreq_Fin
    by (try lia; unfold Rdiv; rewrite Rmult_1_l; apply Rinv_neq_0_compat; exact Hfs).
  cbn [bind]. rewrite fft_defined by lia. reflexivity.
Qed.




(** *** draw: what reaches the two plots *)

Import SigRx.








(** X13: after [draw] each curve has as many ordinates as its axis has
    points: N for the window over [self.t] = 0 .. N-1, and 8 N for the
    spectrum over [self.F], whatever the check boxes. *)
Theorem draw_curves_match_axes
        (windows : string -> option ScipyWindows.window_fn)
        (safe_eval : string -> nat -> nat)
        (fil : filter_dict) (self : self_t) (w : list float64) (fs : R) :
  let n := calc_win_N safe_eval fil self in
  calc_win_samples windows fil n = Ok w ->
  List.length w = n ->
  f_S fil = Fin fs -> fs <> 0 -> (1 <= n)%nat ->
  exists s' curves,
    draw windows safe_eval fil self = Ok (s', curves) /\
    t s' = seq 0 n /\
    List.length (fst curves) = List.length (t s') /\
    List.length (snd curves) = List.length (F s') /\
    List.length (F s') = (8 * n)%nat.
Proof.
  intros n Hw Hlen HfS Hfs Hn.
  unfold draw.
  rewrite (calc_win_final windows safe_eval fil self _ fs Hw HfS Hfs Hn).
  fold n. cbn [bind]. eexists. eexists. split; [reflexivity |].
  unfold update_view. self_fields. cbn [fst snd].
  set (win' := if chk_norm_f self then _ else w).
  assert (Lwin : List.length win' = n).
  { unfold win'. destruct (chk_norm_f self); [| exact Hlen].
    unfold mul_scalar. rewrite length_map. exact Hlen. }
  assert (LF : List.length
                 (fftshift (map (fun k => f_mul (of_int k)
                                                (Fin (1 / (INR (n * 8) * (1 / fs)))))
                                (fftfreq_integers (n * 8)))) = (8 * n)%nat).
  { rewrite fftshift_length, length_map, fftfreq_integers_even,
      length_app, !arange_length. lia. }
  split; [reflexivity |]. rewrite length_seq. split; [| split].
  - destruct (chk_log_t self); [| exact Lwin].
    unfold maximum, scalar_mul, log10. rewrite !length_map. exact Lwin.
  - rewrite LF.
    destruct (pad_exact win' (n * 8)) as [_ L]; [lia |].
    destruct (chk_log_f self);
      unfold maximum, scalar_mul, log10, div_scalar;
      rewrite ?length_map, fftshift_length, length_map, dft_length, length_map, L;
      lia.
  - exact LF.
Qed.

Lemma draw_curves_match_axes_witness :
  exists s' curves,
    draw ScipyWindows.attributes safe_eval_default (fil_of "boxcar" 4)
         (self_init true) = Ok (s', curves) /\
    t s' = seq 0 4 /\
    List.length (fst curves) = List.length (t s') /\
    List.length (snd curves) = List.length (F s') /\
    List.length (F s') = (8 * 4)%nat.
Proof.
  apply (draw_curves_match_axes ScipyWindows.attributes safe_eval_default
                                (fil_of "boxcar" 4) (self_init true) (ones 4) 1).
  - apply boxcar_samples.
  - reflexivity.
  - reflexivity.
  - lra.
  - vm_compute. lia.
Defined.

(** *** process_sig_rx *)

Section SigRxProperties.

Variable windows : string -> option ScipyWindows.window_fn.
Variable safe_eval : string -> nat -> nat.

(** X14: a data change signalled while the window is hidden is not lost:
    it only sets [needs_calc], and the next signal that arrives while the
    window is visible, whatever its keys, runs [draw] and leaves
    [needs_calc] and [needs_draw] false. *)
Theorem process_sig_rx_deferred_draw
        (fil : filter_dict) (st : rx_state) (d1 d2 : dict)
        (s' : self_t) (curves : list float64 * list float64) :
  contains "data_changed" d1 = true ->
  draw windows safe_eval fil (core st) = Ok (s', curves) ->
  exists st1,
    process_sig_rx windows safe_eval fil (Some d1) false st
    = Ok (st1, DidNothing) /\
    core st1 = core st /\ needs_calc st1 = true /\
    process_sig_rx windows safe_eval fil (Some d2) true st1
    = Ok (mk_rx s' false (Some false) (needs_redraw st), DidDraw curves).
Proof.
  intros Hd1 Hdraw. unfold process_sig_rx. rewrite Hd1.
  eexists. split; [reflexivity |].
  cbn [core needs_calc needs_draw needs_redraw].
  split; [reflexivity |]. split; [reflexivity |].
  rewrite Bool.orb_true_r, Hdraw. reflexivity.
Qed.

(** X15: [process_sig_rx] reads [needs_draw] and [needs_redraw], which
    [__init__] does not create.  For a visible window, with no data
    change, no 'home' and no pending calculation, a signal without
    'view_changed' raises AttributeError while [needs_draw] is unassigned;
    and with [needs_draw] false, a signal that is no resize raises it while
    [needs_redraw] is unassigned.  Without a dictionary (the default
    [None]) the first membership test raises TypeError. *)
Theorem process_sig_rx_unassigned
        (fil : filter_dict) (d : dict) (st : rx_state) :
  contains "data_changed" d = false ->
  contains "home" d = false ->
  contains "view_changed" d = false ->
  needs_calc st = false ->
  (needs_draw st = None ->
   process_sig_rx windows safe_eval fil (Some d) true st = Raise AttributeError) /\
  (needs_draw st = Some false -> resized d = false -> needs_redraw st = None ->
   process_sig_rx windows safe_eval fil (Some d) true st = Raise AttributeError) /\
  (forall visible,
      process_sig_rx windows safe_eval fil None visible st = Raise TypeError).
Proof.
  intros Hdc Hh Hv Hc. unfold process_sig_rx. rewrite Hdc, Hh, Hv, Hc.
  cbn [orb]. split; [| split].
  - intros ->. reflexivity.
  - intros -> -> ->. reflexivity.
  - reflexivity.
Qed.

(** X16: [process_sig_rx] never clears [needs_redraw]: a completed call
    leaves the flag as it was, or, for a hidden window, sets it; and a flag
    that has been assigned stays assigned. *)
Theorem process_sig_rx_needs_redraw
        (fil : filter_dict) (dict_sig : option dict) (visible : bool)
        (st st' : rx_state) (a : done) :
  process_sig_rx windows safe_eval fil dict_sig visible st = Ok (st', a) ->
  (needs_redraw st' = needs_redraw st
   \/ (visible = false /\ needs_redraw st' = Some true)) /\
  (needs_redraw st = Some true -> needs_redraw st' = Some true) /\
  (needs_draw st <> None -> needs_draw st' <> None).
Proof.
  unfold process_sig_rx. intros H.
  destruct dict_sig as [d |]; [| discriminate].
  destruct visible.
  - destruct (contains "data_changed" d || contains "home" d || needs_calc st).
    { destruct (draw windows safe_eval fil (core st)) as [r | e];
        cbn [bind] in H; [| discriminate].
      injection H as <- <-. cbn. repeat split; auto. discriminate. }
    destruct (contains "view_changed" d); cbn [bind] in H.
    { injection H as <- <-. cbn. repeat split; auto. discriminate. }
    destruct (needs_draw st) as [[|] |] eqn:Ed; cbn [read_attr bind] in H;
      [| | discriminate].
    { injection H as <- <-. cbn. repeat split; auto. discriminate. }
    destruct (resized d); cbn [bind] in H.
    { injection H as <- <-. rewrite Ed. repeat split; auto. }
    destruct (needs_redraw st) as [[|] |] eqn:Er; cbn [read_attr bind] in H;
      [| | discriminate];
      injection H as <- <-; rewrite Ed, Er; repeat split; auto.
  - destruct (contains "data_changed" d).
    { injection H as <- <-. cbn. repeat split; auto. }
    destruct (contains "view_changed" d).
    { injection H as <- <-. cbn. repeat split; auto. discriminate. }
    destruct (resized d); injection H as <- <-; cbn; repeat split; auto.
Qed.

(** X17: while the window is hidden [process_sig_rx] raises nothing,
    runs none of [draw], [update_view], [redraw], and leaves the computed
    attributes alone; it records a data change in [needs_calc], and when it
    does it touches no other flag.  A 'home' signal leaves no trace. *)
Theorem process_sig_rx_hidden
        (fil : filter_dict) (d : dict) (st : rx_state) :
  exists st',
    process_sig_rx windows safe_eval fil (Some d) false st
    = Ok (st', DidNothing) /\
    core st' = core st /\
    needs_calc st' = (contains "data_changed" d || needs_calc st)%bool /\
    (contains "data_changed" d = true ->
     needs_draw st' = needs_draw st /\ needs_redraw st' = needs_redraw st) /\
    (contains "data_changed" d = false -> contains "view_changed" d = false ->
     resized d = false -> st' = st).
Proof.
  unfold process_sig_rx.
  destruct (contains "data_changed" d);
    [eexists; split; [reflexivity |]; cbn; repeat split; discriminate |].
  destruct (contains "view_changed" d);
    [eexists; split; [reflexivity |]; cbn; repeat split; discriminate |].
  destruct (resized d);
    eexists; (split; [reflexivity |]); cbn; repeat split; discriminate.
Qed.

End SigRxProperties.

Lemma draw_boxcar_4 :
  exists s' curves,
    draw ScipyWindows.attributes safe_eval_default (fil_of "boxcar" 4)
         (self_init true) = Ok (s', curves).
Proof.
  unfold draw.
  rewrite (calc_win_final ScipyWindows.attributes safe_eval_default
                          (fil_of "boxcar" 4) (self_init true) (ones 4) 1);
    [| apply boxcar_samples | reflexivity | lra | vm_compute; lia].
  cbn [bind]. eexists. eexists. reflexivity.
Qed.

Lemma process_sig_rx_deferred_draw_witness :
  exists s' curves st1,
    draw ScipyWindows.attributes safe_eval_default (fil_of "boxcar" 4)
         (self_init true) = Ok (s', curves) /\
    process_sig_rx ScipyWindows.attributes safe_eval_default (fil_of "boxcar" 4)
                   (Some [("data_changed"%string, "filter"%string)]) false
                   (init_rx (self_init true))
    = Ok (st1, DidNothing) /\
    process_sig_rx ScipyWindows.attributes safe_eval_default (fil_of "boxcar" 4)
                   (Some []) true st1
    = Ok (mk_rx s' false (Some false) None, DidDraw curves).
Proof.
  destruct draw_boxcar_4 as [s' [curves Hdraw]].
  destruct (process_sig_rx_deferred_draw
              ScipyWindows.attributes safe_eval_default (fil_of "boxcar" 4)
              (init_rx (self_init true))
              [("data_changed"%string, "filter"%string)] []
              s' curves eq_refl Hdraw)
    as [st1 [H1 [_ [_ H2]]]].
  exists s', curves, st1. split; [exact Hdraw |]. split; [exact H1 | exact H2].
Defined.

Lemma process_sig_rx_unassigned_witness :
  process_sig_rx ScipyWindows.attributes safe_eval_default (fil_of "boxcar" 4)
                 (Some [("ui_changed"%string, "resized"%string)]) true
                 (init_rx (self_init true))
  = Raise AttributeError.
Proof.
  destruct (process_sig_rx_unassigned
              ScipyWindows.attributes safe_eval_default (fil_of "boxcar" 4)
              [("ui_changed"%string, "resized"%string)] (init_rx (self_init true))
              eq_refl eq_refl eq_refl eq_refl) as [H _].
  apply H. reflexivity.
Defined.

Lemma process_sig_rx_needs_redraw_witness :
  (needs_redraw (mk_rx (self_init true) false None (Some true))
   = needs_redraw (init_rx (self_init true))
   \/ (false = false
       /\ needs_redraw (mk_rx (self_init true) false None (Some true))
          = Some true)) /\
  (needs_redraw (init_rx (self_init true)) = Some true ->
   needs_redraw (mk_rx (self_init true) false None (Some true)) = Some true) /\
  (needs_draw (init_rx (self_init true)) <> None ->
   needs_draw (mk_rx (self_init true) false None (Some true)) <> None).
Proof.
  apply (process_sig_rx_needs_redraw
           ScipyWindows.attributes safe_eval_default (fil_of "boxcar" 4)
           (Some [("ui_changed"%string, "resized"%string)]) false
           (init_rx (self_init true))
           (mk_rx (self_init true) false None (Some true)) DidNothing).
  reflexivity.
Defined.

(** *** calc_win: parameters that count as none, and the frequency axis *)

(** [fb.fil[0]] with other window parameters. *)
Lemma calc_win_same_samples
      (windows : string -> option ScipyWindows.window_fn)
      (safe_eval : string -> nat -> nat)
      (fil fil' : filter_dict) (self : self_t) :
  win_len fil' = win_len fil -> f_S fil' = f_S fil ->
  (forall n, calc_win_samples windows fil' n = calc_win_samples windows fil n) ->
  calc_win windows safe_eval fil' self = calc_win windows safe_eval fil self.
Proof.
  intros Hlen HfS Hs. rewrite !calc_win_stages. cbn zeta.
  unfold calc_win_N. rewrite Hlen, HfS, Hs. reflexivity.
Qed.

(** X18: window parameters whose truth value is false count as no
    parameters: with the scalar 0 or with an empty sequence the window
    routine is called as f(N), and [calc_win] does what it does without
    parameters; the 0 is not passed on. *)
Theorem calc_win_falsy_params
        (windows : string -> option ScipyWindows.window_fn)
        (safe_eval : string -> nat -> nat)
        (len : nat) (name : string) (rate : float64) (self : self_t)
        (p : win_params_t) :
  p = PScalar (Fin 0) \/ p = PSeq [] ->
  calc_win windows safe_eval
           {| win_len := len; win_params := p; win_fnct := name; f_S := rate |}
           self
  = calc_win windows safe_eval
             {| win_len := len; win_params := PNone; win_fnct := name;
                f_S := rate |}
             self.
Proof.
  intros Hp. apply calc_win_same_samples; try reflexivity.
  intros n. unfold calc_win_samples. cbn [win_params win_fnct].
  destruct Hp as [-> | ->]; cbn [truth]; [rewrite f_nonzero_zero |];
    reflexivity.
Qed.

Lemma calc_win_falsy_params_witness :
  calc_win ScipyWindows.attributes safe_eval_default
           {| win_len := 4; win_params := PScalar (Fin 0);
              win_fnct := "boxcar"; f_S := Fin 1 |}
           (self_init true)
  = calc_win ScipyWindows.attributes safe_eval_default
             {| win_len := 4; win_params := PNone;
                win_fnct := "boxcar"; f_S := Fin 1 |}
             (self_init true).
Proof.
  apply (calc_win_falsy_params ScipyWindows.attributes safe_eval_default
                               4 "boxcar" (Fin 1) (self_init true)
                               (PScalar (Fin 0))).
  left. reflexivity.
Defined.

(** X19: for a positive sample rate the frequency axis [self.F] is
    sorted: its entries never decrease with the index, those before index
    4 N are not positive, the entry at 4 N is zero and those after it are
    not negative.  Every entry is an integer of [fftfreq] times its one
    spacing [val], which is not negative, so the order is that of the
    integers however the products are rounded. *)
Theorem calc_win_axis_sorted
        (windows : string -> option ScipyWindows.window_fn)
        (safe_eval : string -> nat -> nat)
        (fil : filter_dict) (self : self_t) (w : list float64) (fs : R) :
  let n := calc_win_N safe_eval fil self in
  calc_win_samples windows fil n = Ok w ->
  f_S fil = Fin fs -> 0 < fs -> (1 <= n)%nat ->
  exists s',
    calc_win windows safe_eval fil self = Ok s' /\
    nth (4 * n) (F s') NaN = Fin 0 /\
    (forall i, (i < 8 * n)%nat ->
               exists x, nth i (F s') NaN = Fin x /\
                         ((i < 4 * n)%nat -> x <= 0) /\
                         ((4 * n <= i)%nat -> 0 <= x)) /\
    (forall i j, (i <= j < 8 * n)%nat ->
                 exists x y, nth i (F s') NaN = Fin x /\
                             nth j (F s') NaN = Fin y /\ x <= y).
Proof.
  intros n Hw HfS Hfs Hn.
  assert (Hfs0 : fs <> 0) by lra.
  assert (Hpos : 0 < INR n) by (apply INR_pos; exact Hn).
  eexists.
  split; [apply (calc_win_final windows safe_eval fil self _ fs Hw HfS Hfs0 Hn) |].
  fold n. self_fields.
  set (val := 1 / (INR (n * 8) * (1 / fs))).
  assert (Hv : 0 < val).
  { unfold val. rewrite mult_INR. simpl INR.
    apply Rdiv_lt_0_compat; [lra |].
    apply Rmult_lt_0_compat; [lra |]. apply Rdiv_lt_0_compat; lra. }
  assert (Hbin : forall i, (i < 8 * n)%nat ->
            nth i (fftshift
                     (map (fun k => f_mul (of_int k) (Fin val))
                          (fftfreq_integers (n * 8)))) NaN
            = Fin ((INR i - 4 * INR n) * val)).
  { intros i Hi. apply fftshift_fftfreq_bin. lia. }
  assert (H4 : INR (4 * n) = 4 * INR n) by (rewrite mult_INR; simpl INR; lra).
  split; [| split].
  - rewrite Hbin by lia. rewrite H4. f_equal. ring.
  - intros i Hi. rewrite Hbin by exact Hi. eexists. split; [reflexivity |].
    split; intros H.
    + apply lt_INR in H. rewrite H4 in H. nra.
    + apply le_INR in H. rewrite H4 in H. nra.
  - intros i j [Hij Hj]. rewrite !Hbin by lia.
    eexists. eexists. split; [reflexivity |]. split; [reflexivity |].
    apply le_INR in Hij. nra.
Qed.

Lemma calc_win_axis_sorted_witness :
  exists s',
    calc_win ScipyWindows.attributes safe_eval_default (fil_of "boxcar" 4)
             (self_init true) = Ok s' /\
    nth (4 * 4) (F s') NaN = Fin 0 /\
    (forall i, (i < 8 * 4)%nat ->
               exists x, nth i (F s') NaN = Fin x /\
                         ((i < 4 * 4)%nat -> x <= 0) /\
                         ((4 * 4 <= i)%nat -> 0 <= x)) /\
    (forall i j, (i <= j < 8 * 4)%nat ->
                 exists x y, nth i (F s') NaN = Fin x /\
                             nth j (F s') NaN = Fin y /\ x <= y).
Proof.
  apply (calc_win_axis_sorted ScipyWindows.attributes safe_eval_default
                              (fil_of "boxcar" 4) (self_init true)
                              (ones 4) 1).
  - apply boxcar_samples.
  - reflexivity.
  - lra.
  - vm_compute. lia.
Defined.


(** *** The spectrum is a magnitude *)

Lemma fftshift_In {A} (l : list A) (x : A) : In x (fftshift l) -> In x l.
Proof.
  unfold fftshift. intros H.
  rewrite <- (firstn_skipn (List.length l - List.length l / 2) l).
  apply in_app_or in H. apply in_or_app. tauto.
Qed.

(** [abs] of a complex number is a finite number that is not negative,
    plus infinity, or NaN. *)
Lemma c_abs_range (z : complex) :
  (exists a, c_abs z = Fin a /\ 0 <= a) \/ c_abs z = PInf \/ c_abs z = NaN.
Proof.
  unfold c_abs. destruct z as [[a | | |] [b | | |]]; cbn [fst snd is_inf orb];
    try (right; left; reflexivity); try (right; right; reflexivity).
  left. eexists. split; [reflexivity | apply sqrt_pos].
Qed.

(** X20: the spectrum [self.Win] has no negative entry, whatever the
    samples are: each entry is a magnitude divided by N >= 1, so it is a
    finite number that is not negative, plus infinity, or NaN.  The
    logarithm of [update_view], which is taken without [abs], therefore
    meets no negative value in the spectrum. *)
Theorem calc_win_spectrum_nonneg
        (windows : string -> option ScipyWindows.window_fn)
        (safe_eval : string -> nat -> nat)
        (fil : filter_dict) (self s' : self_t) (i : nat) :
  calc_win windows safe_eval fil self = Ok s' ->
  (i < List.length (Win s'))%nat ->
  (exists m, nth i (Win s') NaN = Fin m /\ 0 <= m)
  \/ nth i (Win s') NaN = PInf \/ nth i (Win s') NaN = NaN.
Proof.
  intros Hrun Hi.
  pose proof (calc_win_stages windows safe_eval fil self) as E. cbn zeta in E.
  rewrite Hrun in E.
  set (n := calc_win_N safe_eval fil self) in *.
  destruct (calc_win_samples windows fil n) as [w | e];
    cbn [bind] in E; [| discriminate].
  destruct (py_div (Fin 1) (f_S fil)) as [d | e];
    cbn [bind] in E; [| discriminate].
  destruct (fftfreq (n * 8) d) as [freqs | e];
    cbn [bind] in E; [| discriminate].
  destruct (fft _ (n * 8)) as [X | e] eqn:HX in E;
    cbn [bind] in E; [| discriminate].
  injection E as E.
  assert (Hn : (1 <= n)%nat).
  { destruct n as [| n']; [| lia].
    unfold fft in HX. cbn [Nat.mul Nat.ltb Nat.leb] in HX. discriminate. }
  assert (Hpos : 0 < INR n) by (apply INR_pos; exact Hn).
  assert (EW : Win s' = div_scalar (fftshift (map c_abs X)) (of_nat n))
    by (rewrite E; reflexivity).
  rewrite EW in Hi |- *. unfold div_scalar in Hi |- *.
  rewrite length_map in Hi.
  rewrite (nth_indep _ NaN (f_div NaN (of_nat n))) by (rewrite length_map; exact Hi).
  rewrite (map_nth (fun x => f_div x (of_nat n))).
  assert (Hin : In (nth i (fftshift (map c_abs X)) NaN) (map c_abs X))
    by (apply fftshift_In, nth_In; exact Hi).
  apply in_map_iff in Hin as [z [Ez _]]. rewrite <- Ez.
  unfold of_nat.
  destruct (c_abs_range z) as [[a [Ea Ha]] | [Ea | Ea]]; rewrite Ea.
  - left. rewrite f_div_Fin by lra. eexists. split; [reflexivity |].
    apply Rmult_le_pos; [exact Ha |].
    apply Rlt_le, Rinv_0_lt_compat. exact Hpos.
  - right. left. cbn [f_div]. destruct (Rlt_dec (INR n) 0); [lra | reflexivity].
  - right. right. reflexivity.
Qed.

Lemma calc_win_spectrum_nonneg_witness :
  exists s',
    calc_win ScipyWindows.attributes safe_eval_default (fil_of "boxcar" 4)
             (self_init true) = Ok s' /\
    ((exists m, nth 0 (Win s') NaN = Fin m /\ 0 <= m)
     \/ nth 0 (Win s') NaN = PInf \/ nth 0 (Win s') NaN = NaN).
Proof.
  destruct (calc_win_runs ScipyWindows.attributes safe_eval_default
                          (fil_of "boxcar" 4) (self_init true) (ones 4) 1)
    as [s' [Hrun [_ [_ [_ [_ [_ EW]]]]]]].
  - apply boxcar_samples.
  - reflexivity.
  - lra.
  - vm_compute. lia.
  - exists s'. split; [exact Hrun |].
    apply (calc_win_spectrum_nonneg ScipyWindows.attributes safe_eval_default
                                    (fil_of "boxcar" 4) (self_init true) s' 0
                                    Hrun).
    rewrite EW. unfold div_scalar.
    rewrite length_map, fftshift_length, length_map, dft_length, length_map.
    unfold pad. rewrite length_app, repeat_length, length_firstn.
    change (calc_win_N safe_eval_default (fil_of "boxcar" 4) (self_init true))
      with 4%nat.
    lia.
Defined.
